(** * The clock-system peripheral of the MSP430 simulator (simio "clock")

    A shallow embedding of [simio_clock.c] and of the tokenizer [get_arg]
    of [parse.c], followed by the properties of the device.

    Conventions of the embedding.
    - C integers are [Z]; every conversion to a fixed-width type is written
      out with [wrap_u] / [wrap_s] (two's complement, as gcc defines the
      implementation-defined conversions and as the hardware behaves on
      signed overflow).
    - C [double] is IEEE 754 binary64 with round-to-nearest-even and no
      contraction of [a*b+c]: Rocq's primitive floats.
    - [(int32_t)x] for a double outside the [int32_t] range, an infinity or
      a NaN yields [INT32_MIN] (the x86-64 conversion instruction).
    - An integer division by zero, or [INT32_MIN / -1], traps: the
      operation has no result ([None]).
    - The device is a [struct clock] passed by pointer and mutated in
      place: every operation takes the record and returns the new one.
    - Text written with [printc_err] / [printc_dbg] is returned as a list
      of messages (format string and arguments). *)

From Stdlib Require Import ZArith Lia List String Ascii Bool.
From Stdlib Require Import Floats Uint63.
Import ListNotations.
Local Open Scope Z_scope.

(* Decimal literals such as 1.8 denote the nearest double, as in C. *)
Set Warnings "-inexact-float".

(* ================================================================== *)
(** ** Fixed-width integers and doubles *)

Module CTypes.

Definition wrap_u (w x : Z) : Z := x mod 2 ^ w.

Definition wrap_s (w x : Z) : Z := (x + 2 ^ (w - 1)) mod 2 ^ w - 2 ^ (w - 1).

Definition u8 : Z -> Z := wrap_u 8.
Definition u16 : Z -> Z := wrap_u 16.
Definition u32 : Z -> Z := wrap_u 32.
Definition s32 : Z -> Z := wrap_s 32.

Definition INT32_MAX : Z := 2147483647.
Definition INT32_MIN : Z := -2147483648.

(** [abs] of <stdlib.h> on [int]; [abs(INT_MIN)] wraps to [INT_MIN]. *)
Definition abs32 (x : Z) : Z := s32 (Z.abs x).

(** Integer to double ([int32_t] and [int] are exactly representable). *)
Definition double_of_int (z : Z) : float :=
  if z <? 0 then PrimFloat.opp (PrimFloat.of_uint63 (Uint63.of_Z (- z)))
  else PrimFloat.of_uint63 (Uint63.of_Z z).

(** [(int32_t)x]: truncation toward zero. *)
Definition int32_of_double (x : float) : Z :=
  match Prim2SF x with
  | S754_zero _ => 0
  | S754_finite s m e =>
      let mag := if 0 <=? e then Zpos m * 2 ^ e else Zpos m / 2 ^ (- e) in
      let v := if s then - mag else mag in
      if (INT32_MIN <=? v) && (v <=? INT32_MAX) then v else INT32_MIN
  | _ => INT32_MIN
  end.

(** C's [/] and [%] on [int32_t]: truncating, trapping on a zero divisor
    and on the one overflowing quotient. *)
Definition div32 (a b : Z) : option Z :=
  if (b =? 0) || ((a =? INT32_MIN) && (b =? -1)) then None
  else Some (Z.quot a b).

Definition rem32 (a b : Z) : option Z :=
  if (b =? 0) || ((a =? INT32_MIN) && (b =? -1)) then None
  else Some (Z.rem a b).

End CTypes.
Import CTypes.

(* ================================================================== *)
(** ** The C library as far as the device uses it *)

Module Libc.

Definition code (c : ascii) : Z := Z.of_N (N_of_ascii c).
Definition chr (z : Z) : ascii := ascii_of_N (Z.to_N (u8 z)).

Definition isspace (c : ascii) : bool :=
  let n := code c in (n =? 32) || ((9 <=? n) && (n <=? 13)).
Definition isdigit (c : ascii) : bool :=
  let n := code c in (48 <=? n) && (n <=? 57).
Definition isupper (c : ascii) : bool :=
  let n := code c in (65 <=? n) && (n <=? 90).
Definition islower (c : ascii) : bool :=
  let n := code c in (97 <=? n) && (n <=? 122).
Definition tolower (c : ascii) : ascii :=
  if isupper c then chr (code c + 32) else c.

Fixpoint lower (s : string) : string :=
  match s with
  | EmptyString => EmptyString
  | String c r => String (tolower c) (lower r)
  end.

(** [!strcasecmp(a, b)] *)
Definition strcaseeq (a b : string) : bool := String.eqb (lower a) (lower b).

(** A C string ends at its first NUL. *)
Fixpoint c_str (s : string) : string :=
  match s with
  | EmptyString => EmptyString
  | String c r => if code c =? 0 then EmptyString else String c (c_str r)
  end.

Definition ERANGE : Z := 34.

(** The two functions of <math.h> and <stdlib.h> the device calls.
    [strtod s] gives the converted value, the text at [*endptr] and
    whether the call stored [ERANGE] in [errno]. *)
Record libc : Type := MkLibc {
  pow : float -> float -> float;
  strtod : string -> float * string * bool
}.

End Libc.
Import Libc.

(* ================================================================== *)
(** ** parse.c: the tokenizer *)

Module Parse.

Fixpoint skip_space (s : string) : string :=
  match s with
  | String c r => if isspace c then skip_space r else s
  | EmptyString => EmptyString
  end.

Definition is_quote (c : ascii) : bool := code c =? 34.
Definition is_backslash (c : ascii) : bool := code c =? 92.

(** The loop [while ( *end )] of [get_arg].  [out] holds, last first, the
    characters stored through [rewrite]; the result is [out] and the text
    at [end] when the loop is left. *)
Fixpoint scan (qstate qval : Z) (out : list ascii) (s : string)
  : list ascii * string :=
  match s with
  | EmptyString => (out, EmptyString)
  | String c r =>
      if qstate =? 0 then
        if isspace c then (out, s)
        else if is_quote c then scan 1 qval out r
        else scan 0 qval (c :: out) r
      else if qstate =? 1 then
        if is_quote c then scan 0 qval out r
        else if is_backslash c then scan 2 qval out r
        else scan 1 qval (c :: out) r
      else if qstate =? 2 then
        if is_backslash c then scan 1 qval (chr 92 :: out) r
        else if code c =? 110 then scan 1 qval (chr 10 :: out) r
        else if code c =? 114 then scan 1 qval (chr 13 :: out) r
        else if code c =? 116 then scan 1 qval (chr 9 :: out) r
        else if (48 <=? code c) && (code c <=? 51) then
          scan 30 (code c - 48) out r
        else if code c =? 120 then scan 40 0 out r
        else scan 1 qval (c :: out) r
      else if (qstate =? 30) || (qstate =? 31) then
        let qval' :=
          if (48 <=? code c) && (code c <=? 55)
          then Z.lor (Z.shiftl qval 3) (code c - 48) else qval in
        if qstate =? 31 then scan 1 qval' (chr qval' :: out) r
        else scan (qstate + 1) qval' out r
      else if (qstate =? 40) || (qstate =? 41) then
        let qval' :=
          if isdigit c then Z.lor (Z.shiftl qval 4) (code c - 48)
          else if isupper c then Z.lor (Z.shiftl qval 4) (code c - 65 + 10)
          else if islower c then Z.lor (Z.shiftl qval 4) (code c - 97 + 10)
          else qval in
        if qstate =? 41 then scan 1 qval' (chr qval' :: out) r
        else scan (qstate + 1) qval' out r
      else scan qstate qval out r
  end.

(** [get_arg(&text)]: the token (or [None] for NULL) and the new [text].
    When NULL is returned [*text] is left as it was. *)
Definition get_arg (text : string) : option string * string :=
  let start := skip_space (c_str text) in
  match start with
  | EmptyString => (None, text)
  | _ =>
      let '(out, rest) := scan 0 0 [] start in
      (Some (c_str (string_of_list_ascii (rev out))), skip_space rest)
  end.

End Parse.
Import Parse.

(* ================================================================== *)
(** ** simio_clock.c: data *)

Module Clock.

(** Register address *)
Definition DCOCTL : Z := 0x0056.
Definition BCSCTL1 : Z := 0x0057.
Definition BCSCTL2 : Z := 0x0058.
Definition BCSCTL3 : Z := 0x0053.
Definition CALDCO_16MHZ : Z := 0x10F8.
Definition CALBC1_16MHZ : Z := 0x10F9.
Definition CALDCO_12MHZ : Z := 0x10FA.
Definition CALBC1_12MHZ : Z := 0x10FB.
Definition CALDCO_8MHZ : Z := 0x10FC.
Definition CALBC1_8MHZ : Z := 0x10FD.
Definition CALDCO_1MHZ : Z := 0x10FE.
Definition CALBC1_1MHZ : Z := 0x10FF.

(** BCSCTL1 *)
Definition XTS : Z := 0x40.
Definition DIVA1 : Z := 0x20.
Definition DIVA0 : Z := 0x10.

(** BCSCTL2 *)
Definition SELM1 : Z := 0x80.
Definition SELM0 : Z := 0x40.
Definition DIVM1 : Z := 0x20.
Definition DIVM0 : Z := 0x10.
Definition SELS : Z := 0x08.
Definition DIVS1 : Z := 0x04.
Definition DIVS0 : Z := 0x02.
Definition SELM_2 : Z := 0x80.
Definition SELM_3 : Z := 0xc0.

(** BCSCTL3 only for CLOCK_TYPE_BASIC_PLUS *)
Definition XT2S1 : Z := 0x80.
Definition XT2S0 : Z := 0x40.
Definition LFXT1S1 : Z := 0x20.
Definition LFXT1S0 : Z := 0x10.
Definition LFXT1S_0 : Z := 0x00.
Definition LFXT1S_1 : Z := 0x10.
Definition LFXT1S_2 : Z := 0x20.
Definition LFXT1S_3 : Z := 0x30.
Definition XT2S_0 : Z := 0x00.
Definition XT2S_1 : Z := 0x40.
Definition XT2S_2 : Z := 0x80.
Definition XT2S_3 : Z := 0xc0.

Inductive clock_type_t : Set :=
| CLOCK_TYPE_BASIC
| CLOCK_TYPE_BASIC_PLUS.

(** [struct clock] without its [base] member (the class pointer). *)
Record clock : Type := MkClock {
  (* Config parameters *)
  clock_type : clock_type_t;
  lfxt1_hz : Z;
  xt2_hz : Z;
  vlo_hz : Z;
  dco4_3_hz : Z;
  dco7_3_hz : Z;
  srsel : float;
  sdco : float;

  dco_hz : Z;
  mclk_hz : Z;
  smclk_hz : Z;
  aclk_hz : Z;

  aclk_counter : Z;
  smclk_counter : Z;

  (* Registers for Basic/Basic+ *)
  dcoctl : Z;
  bcsctl1 : Z;
  bcsctl2 : Z;
  bcsctl3 : Z
}.

(** The members a configuration call can point at ([int32_t *hz],
    [double *data]). *)
Inductive hz_member : Set :=
| M_lfxt1 | M_xt2 | M_vlo | M_dco4_3 | M_dco7_3.

Inductive ratio_member : Set :=
| M_srsel | M_sdco.

Definition set_hz (m : hz_member) (v : Z) (c : clock) : clock :=
  match c with
  | MkClock ty lf xt vl d4 d7 sr sd dh mh sh ah ac sc r0 r1 r2 r3 =>
      match m with
      | M_lfxt1 => MkClock ty v xt vl d4 d7 sr sd dh mh sh ah ac sc r0 r1 r2 r3
      | M_xt2 => MkClock ty lf v vl d4 d7 sr sd dh mh sh ah ac sc r0 r1 r2 r3
      | M_vlo => MkClock ty lf xt v d4 d7 sr sd dh mh sh ah ac sc r0 r1 r2 r3
      | M_dco4_3 => MkClock ty lf xt vl v d7 sr sd dh mh sh ah ac sc r0 r1 r2 r3
      | M_dco7_3 => MkClock ty lf xt vl d4 v sr sd dh mh sh ah ac sc r0 r1 r2 r3
      end
  end.

Definition set_ratio (m : ratio_member) (v : float) (c : clock) : clock :=
  match c with
  | MkClock ty lf xt vl d4 d7 sr sd dh mh sh ah ac sc r0 r1 r2 r3 =>
      match m with
      | M_srsel => MkClock ty lf xt vl d4 d7 v sd dh mh sh ah ac sc r0 r1 r2 r3
      | M_sdco => MkClock ty lf xt vl d4 d7 sr v dh mh sh ah ac sc r0 r1 r2 r3
      end
  end.

Definition set_derived (dh mh sh ah : Z) (c : clock) : clock :=
  match c with
  | MkClock ty lf xt vl d4 d7 sr sd _ _ _ _ ac sc r0 r1 r2 r3 =>
      MkClock ty lf xt vl d4 d7 sr sd dh mh sh ah ac sc r0 r1 r2 r3
  end.

Definition set_counters (ac sc : Z) (c : clock) : clock :=
  match c with
  | MkClock ty lf xt vl d4 d7 sr sd dh mh sh ah _ _ r0 r1 r2 r3 =>
      MkClock ty lf xt vl d4 d7 sr sd dh mh sh ah ac sc r0 r1 r2 r3
  end.

Definition set_dcoctl (v : Z) (c : clock) : clock :=
  match c with
  | MkClock ty lf xt vl d4 d7 sr sd dh mh sh ah ac sc _ r1 r2 r3 =>
      MkClock ty lf xt vl d4 d7 sr sd dh mh sh ah ac sc v r1 r2 r3
  end.

Definition set_bcsctl1 (v : Z) (c : clock) : clock :=
  match c with
  | MkClock ty lf xt vl d4 d7 sr sd dh mh sh ah ac sc r0 _ r2 r3 =>
      MkClock ty lf xt vl d4 d7 sr sd dh mh sh ah ac sc r0 v r2 r3
  end.

Definition set_bcsctl2 (v : Z) (c : clock) : clock :=
  match c with
  | MkClock ty lf xt vl d4 d7 sr sd dh mh sh ah ac sc r0 r1 _ r3 =>
      MkClock ty lf xt vl d4 d7 sr sd dh mh sh ah ac sc r0 r1 v r3
  end.

Definition set_bcsctl3 (v : Z) (c : clock) : clock :=
  match c with
  | MkClock ty lf xt vl d4 d7 sr sd dh mh sh ah ac sc r0 r1 r2 _ =>
      MkClock ty lf xt vl d4 d7 sr sd dh mh sh ah ac sc r0 r1 r2 v
  end.

(** Output of [printc_err] and [printc_dbg]: the format string with
    its [%s] and [%g] arguments. *)
Inductive fmt_arg : Type :=
| AStr (s : string)
| ADouble (x : float).

Inductive message : Type :=
| Err (fmt : string) (args : list fmt_arg)
| Dbg (fmt : string) (args : list fmt_arg).

Definition nl : string := String (chr 10) EmptyString.
Definition TAG : string := "simio: clock: ".

(** Modelled from the spec: [simio_device.h] is not among the sources;
    the [clocks] array of [step] is the three-slot record indexed
    main ([SIMIO_MCLK]), sub-main ([SIMIO_SMCLK]), auxiliary
    ([SIMIO_ACLK]). *)
Record clocks_t : Set := MkClocks {
  SIMIO_MCLK : Z;
  SIMIO_SMCLK : Z;
  SIMIO_ACLK : Z
}.

(* ================================================================== *)
(** ** simio_clock.c: formatting *)

Definition is_char (n : Z) (c : ascii) : bool := code c =? n.

(** The [do ... while] of [to_frequency]; [buf] is the text between
    [buf] and [p].  An unsigned 32-bit value has at most ten digits. *)
Fixpoint emit_digits (fuel : nat) (hz digit len : Z) (buf : list ascii)
  : Z * list ascii :=
  let buf1 :=
    if negb (digit =? 0) && (digit mod 3 =? 0) && (hz <? 1000)
    then buf ++ [chr 46] else buf in
  let buf2 := buf1 ++ [chr (hz mod 10 + 48)] in
  let hz' := hz / 10 in
  let digit' := digit + 1 in
  match fuel with
  | S f =>
      if (0 <? hz') && (Z.of_nat (List.length buf2) <? len)
      then emit_digits f hz' digit' len buf2
      else (digit', buf2)
  | O => (digit', buf2)
  end.

(** [while (end > buf && *--end == '0')] on the offset of [end]. *)
Fixpoint skip_zeroes (buf : list ascii) (e : nat) : nat :=
  match e with
  | O => O
  | S e' => if is_char 48 (nth e' buf Ascii.zero) then skip_zeroes buf e' else e'
  end.

(** The offset [suppress_suffix_zeroes] returns. *)
Definition suppress_suffix_zeroes (buf : list ascii) (e : nat) : nat :=
  let e1 := skip_zeroes buf e in
  if is_char 46 (nth e1 buf Ascii.zero) then e1 else S e1.

(** [reverse(buf, p)] swaps the characters pairwise from both ends. *)
Definition reverse (buf : list ascii) : list ascii := rev buf.

Definition to_frequency (hz : Z) (len : Z) : string :=
  let len := len - 4 in
  let '(digit, buf0) := emit_digits 10 (u32 hz) 0 len [] in
  let buf := reverse buf0 in
  let p := List.length buf in
  let p := if 3 <? digit then suppress_suffix_zeroes buf p else p in
  let unit :=
    if 6 <? digit then "M"%string
    else if 3 <? digit then "k"%string else EmptyString in
  (string_of_list_ascii (firstn p buf) ++ unit ++ "Hz")%string.

Definition sizeof_buf : Z := 20.

(* ================================================================== *)
(** ** simio_clock.c: operations *)

Section Device.

Variable L : libc.

(** [clock_create]: the device, what was printed, and the text left in
    [*arg_text].  [malloc] is taken to succeed. *)
Definition clock_create (arg_text : string)
  : option clock * list message * string :=
  let '(type_text, rest) := get_arg arg_text in
  match type_text with
  | None => (None, [Err (TAG ++ "clock type required" ++ nl) []], rest)
  | Some t =>
      if strcaseeq t "basic" then
        (Some (MkClock CLOCK_TYPE_BASIC 0 0 0 750000 0 1.65 1.12
                       0 0 0 0 0 0 0 0 0 0), [], rest)
      else if strcaseeq t "basic+" then
        (Some (MkClock CLOCK_TYPE_BASIC_PLUS 0 0 12000 0 1140000 1.35 1.08
                       0 0 0 0 0 0 0 0 0 0), [], rest)
      else
        (None, [Err (TAG ++ "unknown clock type: %s" ++ nl) [AStr t]], rest)
  end.

Definition calc_dcoclk (clk : clock) (dcoctl bcsctl1 : Z) : Z :=
  let dco := Z.shiftr (Z.land dcoctl 0xe0) 5 in
  let mod_ := Z.land dcoctl 0x1f in
  let '(dcoclk, d_rsel) :=
    match clock_type clk with
    | CLOCK_TYPE_BASIC =>
        (double_of_int (dco4_3_hz clk), Z.land bcsctl1 0x7 - 4)
    | CLOCK_TYPE_BASIC_PLUS =>
        (double_of_int (dco7_3_hz clk), Z.land bcsctl1 0xf - 7)
    end in
  let dcoclk := (dcoclk * pow L (srsel clk) (double_of_int d_rsel))%float in
  let dcoclk := (dcoclk * pow L (sdco clk) (double_of_int (dco - 3)))%float in
  let next_dcoclk := (dcoclk * sdco clk)%float in
  int32_of_double
    ((double_of_int 32 * dcoclk * next_dcoclk)
     / (double_of_int mod_ * dcoclk
        + double_of_int (32 - mod_) * next_dcoclk))%float.

Definition update_clock_frequencies (clk : clock) : clock :=
  let dcoclk := calc_dcoclk clk (dcoctl clk) (bcsctl1 clk) in
  (* Select LFXTCLK *)
  let lfxtclk :=
    match clock_type clk with
    | CLOCK_TYPE_BASIC_PLUS =>
        if Z.land (bcsctl3 clk) (Z.lor LFXT1S1 LFXT1S0) =? LFXT1S_2
        then vlo_hz clk else lfxt1_hz clk
    | CLOCK_TYPE_BASIC => lfxt1_hz clk
    end in
  (* Select MCLK *)
  let selm := Z.land (bcsctl2 clk) (Z.lor SELM1 SELM0) in
  let mclk :=
    if selm =? SELM_2 then (if 0 <? xt2_hz clk then xt2_hz clk else lfxtclk)
    else if selm =? SELM_3 then lfxtclk
    else dcoclk in
  (* Select SMCLK *)
  let smclk :=
    if negb (Z.land (bcsctl2 clk) SELS =? 0)
    then (if 0 <? xt2_hz clk then xt2_hz clk else lfxtclk)
    else dcoclk in
  set_derived
    dcoclk
    (Z.shiftr mclk (Z.shiftr (Z.land (bcsctl2 clk) (Z.lor DIVM1 DIVM0)) 4))
    (Z.shiftr smclk (Z.shiftr (Z.land (bcsctl2 clk) (Z.lor DIVS1 DIVS0)) 1))
    (Z.shiftr lfxtclk (Z.shiftr (Z.land (bcsctl1 clk) (Z.lor DIVA1 DIVA0)) 4))
    clk.

Definition clock_reset (clk : clock) : clock :=
  let clk := set_counters 0 0 clk in
  let clk := set_dcoctl 0x60 clk in
  let clk := set_bcsctl2 0x00 clk in
  let clk :=
    match clock_type clk with
    | CLOCK_TYPE_BASIC => set_bcsctl1 0x84 clk
    | CLOCK_TYPE_BASIC_PLUS => set_bcsctl3 0x03 (set_bcsctl1 0x87 clk)
    end in
  update_clock_frequencies clk.

(** [val] is [uint32_t], [pow] is [int]. *)
Definition multiply_power_of_10 (val pow : Z) : Z :=
  if 0 <? pow then Nat.iter (Z.to_nat pow) (fun v => u32 (v * 10)) val
  else Nat.iter (Z.to_nat (- pow)) (fun v => v / 10) val.

(** The [for] loop of [config_frequency]: [freq], [frac] and where [p]
    stops. *)
Fixpoint scan_frequency (p : string) (freq frac : Z) : Z * Z * string :=
  match p with
  | EmptyString => (freq, frac, p)
  | String c r =>
      if isdigit c then
        scan_frequency r (s32 (s32 (freq * 10) + (code c - 48)))
                       (if 0 <=? frac then frac + 1 else frac)
      else if is_char 46 c && (frac <? 0) then scan_frequency r freq 0
      else (freq, frac, p)
  end.

(** The configuration calls give their status, the device, what was
    printed and the text left in [*arg_text]. *)
Definition config_result : Type := Z * clock * list message * string.

Definition config_frequency (clk : clock) (hz : hz_member) (arg_text : string)
  : config_result :=
  let '(freq_text, rest) := get_arg arg_text in
  match freq_text with
  | None =>
      (-1, clk, [Err (TAG ++ "config: expected frequency" ++ nl) []], rest)
  | Some freq_text =>
      let '(freq, frac, p) := scan_frequency freq_text 0 (-1) in
      let frac := if frac <? 0 then 0 else frac in
      let scale :=
        if match p with EmptyString => true | _ => false end
           || strcaseeq p "Hz" then Some (0 - frac)
        else if strcaseeq p "kHz" then Some (3 - frac)
        else if strcaseeq p "MHz" then Some (6 - frac)
        else None in
      match scale with
      | None =>
          (-1, clk,
           [Err (TAG ++ "config: illegal frequency: %s" ++ nl)
                [AStr freq_text]], rest)
      | Some frac =>
          let freq := s32 (multiply_power_of_10 (u32 freq) frac) in
          (0, update_clock_frequencies (set_hz hz freq clk), [], rest)
      end
  end.

(** [errno] is the value of the C library's [errno] when the call is
    made; the function never clears it. *)
Definition config_ratio (errno : Z) (clk : clock) (data : ratio_member)
  (arg_text : string) : config_result :=
  let '(double_text, rest) := get_arg arg_text in
  match double_text with
  | None =>
      (-1, clk,
       [Err (TAG ++ "config: expected floating point value" ++ nl) []], rest)
  | Some double_text =>
      let '(value, next, range) := strtod L double_text in
      let errno := if range then ERANGE else errno in
      if negb match next with EmptyString => true | _ => false end
         || (errno =? ERANGE) then
        (-1, clk, [Err (TAG ++ "config: illegal value" ++ nl) []], rest)
      else if (value <=? 1.0)%float then
        (-1, clk,
         [Err (TAG ++ "config: must be greater than 1: %g" ++ nl)
              [ADouble value]], rest)
      else if (1.8 <=? value)%float then
        (-1, clk,
         [Err (TAG ++ "config: must be less than 1.8: %g" ++ nl)
              [ADouble value]], rest)
      else
        (0, update_clock_frequencies (set_ratio data value clk), [], rest)
  end.

Definition clock_config (errno : Z) (clk : clock) (param : string)
  (arg_text : string) : config_result :=
  if strcaseeq param "lfxt1" then config_frequency clk M_lfxt1 arg_text
  else if strcaseeq param "xt2" then config_frequency clk M_xt2 arg_text
  else if match clock_type clk with CLOCK_TYPE_BASIC => true | _ => false end
          && strcaseeq param "dco4_3"
  then config_frequency clk M_dco4_3 arg_text
  else if match clock_type clk with
          | CLOCK_TYPE_BASIC_PLUS => true | _ => false end
          && strcaseeq param "vlo"
  then config_frequency clk M_vlo arg_text
  else if match clock_type clk with
          | CLOCK_TYPE_BASIC_PLUS => true | _ => false end
          && strcaseeq param "dco7_3"
  then config_frequency clk M_dco7_3 arg_text
  else if strcaseeq param "srsel" then config_ratio errno clk M_srsel arg_text
  else if strcaseeq param "sdco" then config_ratio errno clk M_sdco arg_text
  else
    (-1, clk,
     [Err (TAG ++ "config: unknown parameter: %s" ++ nl) [AStr param]],
     arg_text).

(** [hz], [low] and [high] are [uint32_t]. *)
Definition check_crystal (hz low high : Z) (name : string) : list message :=
  if (hz <? low) || (high <? hz) then
    [Dbg (TAG ++ "%sS: %s must be %s ~ %s, but %s" ++ nl)
         [AStr name; AStr name;
          AStr (to_frequency low sizeof_buf);
          AStr (to_frequency high sizeof_buf);
          AStr (to_frequency hz sizeof_buf)]]
  else [].

(** [bcsctl3_write] reads the device and prints; the device it leaves is
    returned with what it printed. *)
Definition bcsctl3_write (clk : clock) (data : Z) : clock * list message :=
  let xt2 := u32 (xt2_hz clk) in
  let lfxt1 := u32 (lfxt1_hz clk) in
  let m_xt2 :=
    let sel := Z.land data (Z.lor XT2S1 XT2S0) in
    if sel =? XT2S_0 then check_crystal xt2 400000 1000000 "XT2"
    else if sel =? XT2S_1 then check_crystal xt2 1000000 4000000 "XT2"
    else if sel =? XT2S_2 then check_crystal xt2 2000000 16000000 "XT2"
    else [Dbg (TAG ++ "XT2S: Digital input not supported" ++ nl) []] in
  let sel := Z.land data (Z.lor LFXT1S1 LFXT1S0) in
  let m_lfxt1 :=
    if negb (Z.land (bcsctl2 clk) XTS =? 0) then
      if sel =? LFXT1S_0 then check_crystal lfxt1 400000 1000000 "LFXT1"
      else if sel =? LFXT1S_1 then check_crystal lfxt1 1000000 3000000 "LFXT1"
      else if sel =? LFXT1S_2
      then check_crystal lfxt1 3000000 16000000 "LFXT1"
      else [Dbg (TAG ++ "LFXT1S: Digital input not supported" ++ nl) []]
    else
      if sel =? LFXT1S_1 then
        [Dbg (TAG ++ "LFXT1S: Reserved mode" ++ nl) [];
         Dbg (TAG ++ "LFXT1S: Fallback to mode 0" ++ nl) []]
      else if sel =? LFXT1S_2 then
        if 0 <? vlo_hz clk then []
        else [Dbg (TAG ++ "LFXT1S: VLO mode without VLO set" ++ nl) []]
      else if sel =? LFXT1S_3 then
        [Dbg (TAG ++ "LFXT1S: Digital input mode" ++ nl) [];
         Dbg (TAG ++ "LFXT1S: Fallback to mode 0" ++ nl) []]
      else [] in
  (clk, m_xt2 ++ m_lfxt1).

(** [clock_write_b]: 0 when the access is handled, 1 when the address is
    not the device's. *)
Definition clock_write_b (clk : clock) (addr : Z) (data : Z)
  : Z * clock * list message :=
  let data := u8 data in
  if addr =? BCSCTL3 then
    match clock_type clk with
    | CLOCK_TYPE_BASIC_PLUS =>
        let '(clk, out) := bcsctl3_write clk data in
        (0, update_clock_frequencies clk, out)
    | CLOCK_TYPE_BASIC => (1, clk, [])
    end
  else if addr =? DCOCTL then
    (0, update_clock_frequencies (set_dcoctl data clk), [])
  else if addr =? BCSCTL1 then
    (0, update_clock_frequencies (set_bcsctl1 data clk), [])
  else if addr =? BCSCTL2 then
    (0, update_clock_frequencies (set_bcsctl2 data clk), [])
  else (1, clk, []).

(** The variables of the search loop of [calc_calibrate_dco]. *)
Record cal_state : Set := MkCal {
  cal : Z;
  bit : Z;
  min_delta : Z;
  best_cal : Z
}.

(** The error of one candidate word as the loop computes it. *)
Definition cal_delta (clk : clock) (target_dco : Z) (c : Z) : Z :=
  s32 (calc_dcoclk clk (u8 (Z.land c 0xff)) (u8 (Z.shiftr c 8)) - target_dco).

(** One pass through the body of [while (bit != 0)]. *)
Definition cal_body (clk : clock) (target_dco : Z) (s : cal_state)
  : cal_state :=
  let delta := cal_delta clk target_dco (cal s) in
  let '(min_delta', best_cal') :=
    if abs32 delta <? min_delta s then (abs32 delta, cal s)
    else (min_delta s, best_cal s) in
  let cal' :=
    if 0 <? delta then u16 (Z.land (cal s) (Z.lnot (bit s))) else cal s in
  let bit' := u16 (Z.shiftr (bit s) 1) in
  MkCal (u16 (Z.lor cal' bit')) bit' min_delta' best_cal'.

(** The loop, with the candidate words it evaluated (oldest first).
    [None] when [fuel] passes do not reach [bit == 0]. *)
Fixpoint cal_loop (fuel : nat) (clk : clock) (target_dco : Z)
  (s : cal_state) (seen : list Z) : option (cal_state * list Z) :=
  if bit s =? 0 then Some (s, seen)
  else
    match fuel with
    | O => None
    | S f =>
        cal_loop f clk target_dco (cal_body clk target_dco s) (seen ++ [cal s])
    end.

Definition cal_init (clk : clock) : cal_state :=
  let rsel_max :=
    match clock_type clk with
    | CLOCK_TYPE_BASIC => 0x4
    | CLOCK_TYPE_BASIC_PLUS => 0x8
    end in
  let cal := u16 (Z.shiftl rsel_max 8) in
  MkCal cal cal INT32_MAX cal.

(** The search of [calc_calibrate_dco]: [bit] is a [uint16_t], so
    sixteen passes always suffice (see [cal_search_total]). *)
Definition cal_search (clk : clock) (target_dco : Z)
  : option (cal_state * list Z) :=
  cal_loop 16 clk target_dco (cal_init clk) [].

Definition calc_calibrate_dco (clk : clock) (addr : Z) (target_dco : Z)
  : option Z :=
  match cal_search clk target_dco with
  | Some (s, _) =>
      Some (u8 (if addr mod 2 =? 0 then best_cal s
                else Z.shiftr (best_cal s) 8))
  | None => None
  end.

(** [clock_read_b]: the status, the device (never written) and [*data].
    [None] stands for a read that does not return. *)
Definition clock_read_b (clk : clock) (addr : Z) (data : Z)
  : option (Z * clock * Z) :=
  if addr =? DCOCTL then Some (0, clk, dcoctl clk)
  else if addr =? BCSCTL1 then Some (0, clk, bcsctl1 clk)
  else if addr =? BCSCTL2 then Some (0, clk, bcsctl2 clk)
  else
    match clock_type clk with
    | CLOCK_TYPE_BASIC_PLUS =>
        let calibrated target :=
          match calc_calibrate_dco clk addr target with
          | Some v => Some (0, clk, v)
          | None => None
          end in
        if addr =? BCSCTL3 then Some (0, clk, bcsctl3 clk)
        else if (addr =? CALDCO_16MHZ) || (addr =? CALBC1_16MHZ)
        then calibrated 16000000
        else if (addr =? CALDCO_12MHZ) || (addr =? CALBC1_12MHZ)
        then calibrated 12000000
        else if (addr =? CALDCO_8MHZ) || (addr =? CALBC1_8MHZ)
        then calibrated 8000000
        else if (addr =? CALDCO_1MHZ) || (addr =? CALBC1_1MHZ)
        then calibrated 1000000
        else Some (1, clk, data)
    | CLOCK_TYPE_BASIC => Some (1, clk, data)
    end.

(** [clock_step].  [status] is not used.  [None] when a division traps. *)
Definition clock_step (clk : clock) (status : Z) (clocks : clocks_t)
  : option (clock * clocks_t) :=
  let duration := u32 (s32 (SIMIO_MCLK clocks * mclk_hz clk)) in
  let ac := s32 (u32 (u32 (aclk_counter clk) + duration)) in
  let sc := s32 (u32 (u32 (smclk_counter clk) + duration)) in
  match div32 ac (aclk_hz clk), div32 sc (smclk_hz clk),
        rem32 ac (aclk_hz clk), rem32 sc (smclk_hz clk) with
  | Some qa, Some qs, Some ra, Some rs =>
      Some (set_counters ra rs clk, MkClocks (SIMIO_MCLK clocks) qs qa)
  | _, _, _, _ => None
  end.

End Device.

(* ================================================================== *)
(** ** A reference C library

    [pow] and [strtod] are not part of the program.  The properties below
    that hold whatever they compute are stated for every [libc]; the ones
    that run the device on concrete input use this instance, which follows
    ISO C where ISO C fixes the result. *)

Module RefLibc.

Fixpoint pow_nat (x : float) (n : nat) : float :=
  match n with
  | O => 1%float
  | S k => (x * pow_nat x k)%float
  end.

(** [pow(x, y)] for the integral [y] the device passes.  ISO C (F.10.4.4)
    fixes [pow(x, 0) = 1] for every [x], and [x * 1] is [x]; the other
    exponents are products, within rounding of the library's value. *)
Definition pow (x y : float) : float :=
  let n := int32_of_double y in
  if n =? 0 then 1%float
  else if 0 <? n then pow_nat x (Z.to_nat n)
  else (1 / pow_nat x (Z.to_nat (- n)))%float.

Fixpoint read_digits (s : string) (acc n : Z) : Z * Z * string :=
  match s with
  | String c r =>
      if isdigit c then read_digits r (acc * 10 + (code c - 48)) (n + 1)
      else (acc, n, s)
  | EmptyString => (acc, n, s)
  end.

Fixpoint strip_prefix (p s : string) : option string :=
  match p, s with
  | EmptyString, _ => Some s
  | String a p', String b s' =>
      if Ascii.eqb (tolower a) (tolower b) then strip_prefix p' s' else None
  | _, EmptyString => None
  end.

(** The optional [(n-char-sequence)] after [nan]. *)
Fixpoint skip_nchars (s : string) : option string :=
  match s with
  | String c r =>
      if code c =? 41 then Some r
      else if isdigit c || isupper c || islower c || (code c =? 95)
      then skip_nchars r else None
  | EmptyString => None
  end.

Definition skip_nan_payload (s : string) : string :=
  match s with
  | String c r =>
      if code c =? 40 then
        match skip_nchars r with Some r' => r' | None => s end
      else s
  | EmptyString => s
  end.

(** The optional exponent part: its value and the text after it. *)
Definition read_exponent (s : string) : Z * string :=
  match s with
  | String c r =>
      if (code c =? 101) || (code c =? 69) then
        let '(neg, r1) :=
          match r with
          | String d r' =>
              if code d =? 45 then (true, r')
              else if code d =? 43 then (false, r') else (false, r)
          | EmptyString => (false, r)
          end in
        let '(e, n, r2) := read_digits r1 0 0 in
        if n =? 0 then (0, s) else (if neg then - e else e, r2)
      else (0, s)
  | EmptyString => (0, s)
  end.

(** The double nearest to [m * 10^e10] (ties to even) and whether the
    conversion is out of range.  [ndigits] bounds the number of digits of
    [m]; beyond the two cut-offs the result is an infinity or a zero. *)
Definition decimal_to_double (neg : bool) (m e10 ndigits : Z)
  : float * bool :=
  match m with
  | Zpos _ =>
      if 310 <? e10 then (SF2Prim (S754_infinity neg), true)
      else if e10 + ndigits <? -330 then (SF2Prim (S754_zero neg), true)
      else
        let num := Z.to_pos (m * 10 ^ Z.max e10 0) in
        let den := Z.to_pos (10 ^ Z.max (- e10) 0) in
        let r := SFdiv prec emax (S754_finite neg num 0)
                       (S754_finite false den 0) in
        (SF2Prim r,
         match r with
         | S754_finite _ mm _ => Zpos (digits2_pos mm) <? prec
         | S754_nan => false
         | _ => true
         end)
  | _ => (SF2Prim (S754_zero neg), false)
  end.

(** [strtod] on decimal floating constants, [inf], [infinity] and [nan].
    Hexadecimal constants are not covered: of [0x...] the leading [0] is
    converted. *)
Definition strtod (s : string) : float * string * bool :=
  let s0 := skip_space s in
  let '(neg, s1) :=
    match s0 with
    | String c r =>
        if code c =? 45 then (true, r)
        else if code c =? 43 then (false, r) else (false, s0)
    | EmptyString => (false, s0)
    end in
  match strip_prefix "infinity" s1, strip_prefix "inf" s1,
        strip_prefix "nan" s1 with
  | Some r, _, _ => (SF2Prim (S754_infinity neg), r, false)
  | None, Some r, _ => (SF2Prim (S754_infinity neg), r, false)
  | None, None, Some r => (nan, skip_nan_payload r, false)
  | None, None, None =>
      let '(ip, ni, s2) := read_digits s1 0 0 in
      let '(m, nf, s3) :=
        match s2 with
        | String c r =>
            if code c =? 46 then read_digits r ip 0 else (ip, 0, s2)
        | EmptyString => (ip, 0, s2)
        end in
      if ni + nf =? 0 then (0%float, s, false)
      else
        let '(e, s4) := read_exponent s3 in
        let '(v, range) := decimal_to_double neg m (e - nf) (ni + nf) in
        (v, s4, range)
  end.

Definition ref : libc := MkLibc pow strtod.

End RefLibc.

(* ================================================================== *)
(** ** Sessions used as examples *)

Module Scenarios.

Definition and_then {A B : Type} (x : option A) (f : A -> option B)
  : option B :=
  match x with
  | Some a => f a
  | None => None
  end.

Notation "x >>= f" := (and_then x f) (at level 50, left associativity).

(** [create] with the family token alone. *)
Definition created (arg_text : string) : option clock :=
  fst (fst (clock_create arg_text)).

(** [config] with the reference library and a clean [errno]; the session
    stops when the call fails. *)
Definition configured (param arg_text : string) (clk : clock)
  : option clock :=
  let '(ret, clk', _, _) := clock_config RefLibc.ref 0 clk param arg_text in
  if ret =? 0 then Some clk' else None.

Definition reset (clk : clock) : option clock :=
  Some (clock_reset RefLibc.ref clk).

Definition written (addr data : Z) (clk : clock) : option clock :=
  let '(ret, clk', _) := clock_write_b RefLibc.ref clk addr data in
  if ret =? 0 then Some clk' else None.

Definition stepped (mclk : Z) (clk : clock) : option clock :=
  option_map fst (clock_step clk 0 (MkClocks mclk 0 0)).

Definition basic_reset : option clock :=
  created "basic" >>= reset.

Definition basic_plus_reset : option clock :=
  created "basic+" >>= reset.

(** A Basic device whose baseline is set to 747.01 kHz. *)
Definition basic_747010 : option clock :=
  created "basic" >>= configured "dco4_3" "747010" >>= reset.

(** A Basic+ device with a watch crystal, after one main tick. *)
Definition watch_crystal_stepped : option clock :=
  created "basic+" >>= configured "lfxt1" "32768Hz" >>= reset
    >>= stepped 1.

(** ... and after the auxiliary divider is then set to /8. *)
Definition watch_crystal_divided : option clock :=
  watch_crystal_stepped >>= written BCSCTL1 0xB7.

(** A Basic device clocked from a 2 GHz source with a 1.5 GHz auxiliary
    source, after one main tick. *)
Definition gigahertz_stepped : option clock :=
  created "basic" >>= configured "xt2" "2000MHz"
    >>= configured "lfxt1" "1500MHz" >>= reset
    >>= written BCSCTL2 0x88 >>= stepped 1.

(** A Basic+ device whose baseline is configured with ten digits that do
    not fit an [int32_t]: the accumulation in [config_frequency] wraps
    3294967296 to -1000000000, which is stored. *)
Definition wrapped_baseline : option clock :=
  created "basic+" >>= configured "dco7_3" "3294967296" >>= reset.

End Scenarios.

(** The addresses the device answers, by family. *)
Definition mapped (ty : clock_type_t) (addr : Z) : bool :=
  (addr =? DCOCTL) || (addr =? BCSCTL1) || (addr =? BCSCTL2)
  || match ty with
     | CLOCK_TYPE_BASIC => false
     | CLOCK_TYPE_BASIC_PLUS =>
         (addr =? BCSCTL3) || ((CALDCO_16MHZ <=? addr) && (addr <=? CALBC1_1MHZ))
     end.

(** The number of passes of the calibration search, by family: one per
    bit of the word made of the range field and the whole DCOCTL byte. *)
Definition cal_passes (ty : clock_type_t) : nat :=
  match ty with
  | CLOCK_TYPE_BASIC => 11
  | CLOCK_TYPE_BASIC_PLUS => 12
  end.

(** [bit] when the search loop has [k] passes left. *)
Definition bit_left (k : nat) : Z :=
  match k with
  | O => 0
  | S j => 2 ^ Z.of_nat j
  end.

(** The frequency [calc_dcoclk] gives a candidate word: its low byte as
    DCOCTL and its high byte as BCSCTL1, as the search passes them. *)
Definition word_frequency (L : libc) (clk : clock) (c : Z) : Z :=
  calc_dcoclk L clk (u8 (Z.land c 0xff)) (u8 (Z.shiftr c 8)).

(** The absolute error of a candidate word, as the search compares it:
    computed in [int32_t]; it is the exact [|f - target|] when that
    difference is an [int32_t] other than [INT32_MIN]. *)
Definition cal_error (L : libc) (clk : clock) (target_dco c : Z) : Z :=
  abs32 (cal_delta L clk target_dco c).

(** What the loop variables satisfy once the words [seen] have been
    evaluated: [min_delta] bounds every error seen, and [best_cal] is
    either still the starting word with nothing below [INT32_MAX] found,
    or a word seen whose error is [min_delta]. *)
Definition cal_inv (L : libc) (clk : clock) (target_dco : Z)
  (s : cal_state) (seen : list Z) : Prop :=
  Forall (fun c => min_delta s <= cal_error L clk target_dco c) seen /\
  ((min_delta s = INT32_MAX /\ best_cal s = hd (cal s) seen) \/
   (In (best_cal s) seen /\
    cal_error L clk target_dco (best_cal s) = min_delta s)).

End Clock.
Import Clock.

(* ================================================================== *)
(** ** Vocabulary of the statements *)

Module Texts.

(** Only white space (and no NUL). *)
Fixpoint blank (s : string) : bool :=
  match s with
  | EmptyString => true
  | String c r => isspace c && blank r
  end.

(** No white space, no double quote, no NUL: the characters [get_arg]
    copies as they are outside quotes. *)
Definition plain_char (c : ascii) : bool :=
  negb (isspace c) && negb (is_quote c) && negb (code c =? 0).

Fixpoint plain (s : string) : bool :=
  match s with
  | EmptyString => true
  | String c r => plain_char c && plain r
  end.

(** No double quote, no backslash, no NUL: the characters [get_arg]
    copies as they are inside quotes. *)
Definition verbatim_char (c : ascii) : bool :=
  negb (is_quote c) && negb (is_backslash c) && negb (code c =? 0).

Fixpoint verbatim (s : string) : bool :=
  match s with
  | EmptyString => true
  | String c r => verbatim_char c && verbatim r
  end.

(** The text is at its end or at white space: where a bare token stops. *)
Definition at_break (s : string) : bool :=
  match s with
  | EmptyString => true
  | String c _ => isspace c
  end.

Definition quote : string := String (chr 34) EmptyString.

End Texts.
Import Texts.

Module Frames.

(** The parts of [struct clock]. *)
Definition config_of (c : clock)
  : clock_type_t * Z * Z * Z * Z * Z * float * float :=
  (clock_type c, lfxt1_hz c, xt2_hz c, vlo_hz c, dco4_3_hz c, dco7_3_hz c,
   srsel c, sdco c).

Definition derived_of (c : clock) : Z * Z * Z * Z :=
  (dco_hz c, mclk_hz c, smclk_hz c, aclk_hz c).

Definition counters_of (c : clock) : Z * Z :=
  (aclk_counter c, smclk_counter c).

Definition registers_of (c : clock) : Z * Z * Z * Z :=
  (dcoctl c, bcsctl1 c, bcsctl2 c, bcsctl3 c).

(** The device a write leaves. *)
Definition after_write (L : libc) (c : clock) (addr data : Z) : clock :=
  snd (fst (clock_write_b L c addr data)).

(** The device a configuration call leaves. *)
Definition after_config (L : libc) (errno : Z) (c : clock)
  (param arg_text : string) : clock :=
  snd (fst (fst (clock_config L errno c param arg_text))).

End Frames.
Import Frames.

(** Vocabulary for the text of a frequency: what [to_frequency] writes
    and what [config_frequency] makes of a token. *)
Module Decimal.

(** The value [config_frequency] gives a token, or [None] where it
    prints "illegal frequency": the function between its [get_arg] and
    its store. *)
Definition frequency_value (tok : string) : option Z :=
  let '(freq, frac, p) := scan_frequency tok 0 (-1) in
  let frac := if frac <? 0 then 0 else frac in
  let scale :=
    if match p with EmptyString => true | _ => false end
       || strcaseeq p "Hz" then Some (0 - frac)
    else if strcaseeq p "kHz" then Some (3 - frac)
    else if strcaseeq p "MHz" then Some (6 - frac)
    else None in
  match scale with
  | None => None
  | Some frac => Some (s32 (multiply_power_of_10 (u32 freq) frac))
  end.

(** The decimal value of a list of digit characters, continuing [acc]. *)
Fixpoint decimal (acc : Z) (l : list ascii) : Z :=
  match l with
  | [] => acc
  | c :: r => decimal (acc * 10 + (code c - 48)) r
  end.

Definition digit_char (x : Z) : ascii := chr (x mod 10 + 48).

(** The three low digits of [x], lowest first, as the digit loop of
    [to_frequency] writes them. *)
Definition low3 (x : Z) : list ascii :=
  [digit_char x; digit_char (x / 10); digit_char (x / 100)].

(** The digits of [x] below 1000, lowest first, without leading zero. *)
Definition low_digits (x : Z) : list ascii :=
  if x <? 10 then [digit_char x]
  else if x <? 100 then [digit_char x; digit_char (x / 10)]
  else low3 x.

(** Every [x] from 0 to 999 passes [P]. *)
Definition all_below_1000 (P : Z -> bool) : bool :=
  forallb P (map Z.of_nat (seq 0 1000)).

Definition group (x : Z) : list ascii := rev (low3 x).
Definition leading (x : Z) : list ascii := rev (low_digits x).

(** The digits of a fraction group that remain when its trailing zeroes
    are stripped. *)
Definition stripped (x : Z) : list ascii :=
  if x =? 0 then [] else firstn (S (skip_zeroes (group x) 3)) (group x).

Definition group_ok (x : Z) : bool :=
  forallb isdigit (group x) && (decimal 0 (group x) =? x)
  && forallb isdigit (leading x) && (decimal 0 (leading x) =? x)
  && (1 <=? Z.of_nat (List.length (leading x)))
  && (Z.of_nat (List.length (leading x)) <=? 3)
  && forallb isdigit (stripped x)
  && (Z.of_nat (List.length (stripped x)) <=? 3)
  && (decimal 0 (stripped x) * 10 ^ (3 - Z.of_nat (List.length (stripped x)))
      =? x)
  && (if x =? 0
      then forallb (is_char 48) (group x)
      else
        let j := skip_zeroes (group x) 3 in
        negb (is_char 48 (nth j (group x) Ascii.zero))
        && negb (is_char 46 (nth j (group x) Ascii.zero))).

(** The fraction digits [to_frequency] keeps of two groups. *)
Definition fraction2 (b c : Z) : list ascii :=
  if c =? 0 then stripped b else group b ++ stripped c.

Definition formatted (ip fp : list ascii) (unit : string) : string :=
  (string_of_list_ascii (ip ++ match fp with [] => [] | _ => chr 46 :: fp end)
   ++ unit)%string.

(** The integer digits, the fraction digits, the unit and its power of
    ten, for a value below 10^9. *)
Definition rendering (hz : Z) : list ascii * list ascii * string * Z :=
  if hz <? 1000 then (leading hz, [], "Hz"%string, 0)
  else if hz <? 1000000 then
    (leading (hz / 1000), stripped (hz mod 1000), "kHz"%string, 3)
  else
    (leading (hz / 1000000),
     fraction2 (hz / 1000 mod 1000) (hz mod 1000), "MHz"%string, 6).

End Decimal.
Import Decimal.

(* ================================================================== *)
(** * Properties *)

(** ** Fixed-width arithmetic *)

Lemma s32_range (x : Z) : INT32_MIN <= s32 x <= INT32_MAX.
Proof.
  unfold s32, wrap_s, INT32_MIN, INT32_MAX.
  change (2 ^ (32 - 1)) with 2147483648.
  change (2 ^ 32) with 4294967296.
  pose proof (Z.mod_pos_bound (x + 2147483648) 4294967296 eq_refl).
  lia.
Qed.

Lemma s32_small (x : Z) : INT32_MIN <= x <= INT32_MAX -> s32 x = x.
Proof.
  unfold s32, wrap_s, INT32_MIN, INT32_MAX.
  change (2 ^ (32 - 1)) with 2147483648.
  change (2 ^ 32) with 4294967296.
  intros H. rewrite Z.mod_small; lia.
Qed.

Lemma s32_u32 (x : Z) : s32 (u32 x) = s32 x.
Proof.
  unfold s32, u32, wrap_s, wrap_u.
  now rewrite Zplus_mod_idemp_l.
Qed.

Lemma u32_s32 (x : Z) : u32 (s32 x) = u32 x.
Proof.
  unfold s32, u32, wrap_s, wrap_u.
  rewrite Zminus_mod_idemp_l. f_equal. lia.
Qed.

Lemma u32_add_l (x y : Z) : u32 (u32 x + y) = u32 (x + y).
Proof. unfold u32, wrap_u. now rewrite Zplus_mod_idemp_l. Qed.

Lemma u32_add_r (x y : Z) : u32 (x + u32 y) = u32 (x + y).
Proof. unfold u32, wrap_u. now rewrite Zplus_mod_idemp_r. Qed.

(** The accumulation [counter += duration] of [clock_step], when the
    exact sum is an [int32_t]. *)
Lemma accumulate_exact (r e m : Z) :
  INT32_MIN <= r + e * m <= INT32_MAX ->
  s32 (u32 (u32 r + u32 (s32 (e * m)))) = r + e * m.
Proof.
  intros H.
  rewrite s32_u32, u32_s32.
  rewrite <- s32_u32, u32_add_l, u32_add_r, s32_u32.
  now apply s32_small.
Qed.

Lemma abs32_le_max (x : Z) : abs32 x <= INT32_MAX.
Proof. unfold abs32. apply s32_range. Qed.

Lemma u8_small (v : Z) : 0 <= v < 256 -> u8 v = v.
Proof. intros H. unfold u8, wrap_u. apply Z.mod_small. exact H. Qed.

(** ** Record updates *)

Lemma update_keeps_registers (L : libc) (c : clock) :
  dcoctl (update_clock_frequencies L c) = dcoctl c /\
  bcsctl1 (update_clock_frequencies L c) = bcsctl1 c /\
  bcsctl2 (update_clock_frequencies L c) = bcsctl2 c /\
  bcsctl3 (update_clock_frequencies L c) = bcsctl3 c /\
  clock_type (update_clock_frequencies L c) = clock_type c.
Proof. destruct c; unfold update_clock_frequencies; simpl; auto. Qed.

Lemma update_keeps_counters (L : libc) (c : clock) :
  aclk_counter (update_clock_frequencies L c) = aclk_counter c /\
  smclk_counter (update_clock_frequencies L c) = smclk_counter c.
Proof. destruct c; unfold update_clock_frequencies; simpl; auto. Qed.

(** ** Register access *)

Ltac unfold_addresses :=
  unfold DCOCTL, BCSCTL1, BCSCTL2, BCSCTL3, CALDCO_16MHZ, CALBC1_16MHZ,
    CALDCO_12MHZ, CALBC1_12MHZ, CALDCO_8MHZ, CALBC1_8MHZ, CALDCO_1MHZ,
    CALBC1_1MHZ in *.

Ltac case_addresses :=
  repeat match goal with
         | |- context [Z.eqb ?a ?b] => destruct (Z.eqb_spec a b)
         | |- context [Z.leb ?a ?b] => destruct (Z.leb_spec a b)
         | H : context [Z.eqb ?a ?b] |- _ => destruct (Z.eqb_spec a b)
         | H : context [Z.leb ?a ?b] |- _ => destruct (Z.leb_spec a b)
         end.

(** The three registers both families store: a handled write followed by
    a read of the same address gives the written byte back. *)
Lemma stored_register_round_trip (L : libc) (clk : clock) (addr v d : Z) :
  0 <= v < 256 ->
  addr = DCOCTL \/ addr = BCSCTL1 \/ addr = BCSCTL2 ->
  exists clk',
    clock_write_b L clk addr v = (0, clk', []) /\
    clock_read_b L clk' addr d = Some (0, clk', v).
Proof.
  intros Hv Ha. unfold clock_write_b, clock_read_b.
  rewrite (u8_small v Hv).
  destruct Ha as [-> | [-> | ->]]; simpl; eexists; split;
    try reflexivity; do 3 f_equal.
  - destruct (update_keeps_registers L (set_dcoctl v clk)) as (-> & _).
    now destruct clk.
  - destruct (update_keeps_registers L (set_bcsctl1 v clk)) as (_ & -> & _).
    now destruct clk.
  - destruct (update_keeps_registers L (set_bcsctl2 v clk))
      as (_ & _ & -> & _).
    now destruct clk.
Qed.

(** On Basic+ a write to BCSCTL3 is handled and leaves the register as
    it was. *)
Lemma bcsctl3_write_keeps (L : libc) (clk : clock) (v : Z) :
  clock_type clk = CLOCK_TYPE_BASIC_PLUS ->
  exists clk' out,
    clock_write_b L clk BCSCTL3 v = (0, clk', out) /\
    bcsctl3 clk' = bcsctl3 clk.
Proof.
  intros Hty. unfold clock_write_b. simpl. rewrite Hty.
  unfold bcsctl3_write. do 2 eexists. split; [reflexivity|].
  apply (update_keeps_registers L clk).
Qed.

(** C1 (the code's behaviour where the claim fails): on a Basic+ device
    just reset, the write of 0x20 to the third register BCSCTL3 is
    handled, and a read of BCSCTL3 then returns the reset value 0x03, not
    the byte written: [clock_write_b] validates and recomputes but never
    stores to [bcsctl3]. *)
Theorem bcsctl3_write_then_read :
  exists clk clk' out,
    Scenarios.basic_plus_reset = Some clk /\
    clock_write_b RefLibc.ref clk BCSCTL3 0x20 = (0, clk', out) /\
    clock_read_b RefLibc.ref clk' BCSCTL3 0 = Some (0, clk', 0x03).
Proof.
  do 3 eexists. split; [vm_compute; reflexivity|].
  split; vm_compute; reflexivity.
Qed.

(** C6: after [reset] the registers hold the power-on defaults: DCOCTL is
    0x60 and BCSCTL2 is 0x00 on both families; BCSCTL1 is 0x84 on Basic;
    on Basic+ BCSCTL1 is 0x87 and BCSCTL3 is 0x03. *)
Theorem reset_register_defaults (L : libc) (clk : clock) :
  let clk' := clock_reset L clk in
  dcoctl clk' = 0x60 /\
  bcsctl2 clk' = 0x00 /\
  match clock_type clk with
  | CLOCK_TYPE_BASIC => bcsctl1 clk' = 0x84
  | CLOCK_TYPE_BASIC_PLUS => bcsctl1 clk' = 0x87 /\ bcsctl3 clk' = 0x03
  end.
Proof.
  destruct clk as [ty lf xt vl d4 d7 sr sd dh mh sh ah ac sc r0 r1 r2 r3].
  destruct ty; cbv zeta; unfold clock_reset, update_clock_frequencies;
    simpl; auto.
Qed.

(** C8: [to_frequency] on the three examples, with the 20-byte buffer
    every caller passes. *)
Theorem to_frequency_examples :
  to_frequency 1000000 sizeof_buf = "1MHz"%string /\
  to_frequency 32768 sizeof_buf = "32.768kHz"%string /\
  to_frequency 0 sizeof_buf = "0Hz"%string.
Proof. repeat split; vm_compute; reflexivity. Qed.

(** C9: at an address outside the family's mapped set, a read and a write
    both answer 1 (not this device's), print nothing, and return the
    device as it was, whatever its state; the read leaves [*data]. *)
Theorem unmapped_access_not_mine (L : libc) (clk : clock) (addr data : Z) :
  mapped (clock_type clk) addr = false ->
  clock_read_b L clk addr data = Some (1, clk, data) /\
  clock_write_b L clk addr data = (1, clk, []).
Proof.
  intros H. unfold mapped in H. unfold clock_read_b, clock_write_b.
  unfold_addresses.
  destruct (clock_type clk); case_addresses; simpl in *;
    try discriminate; try lia; split; reflexivity.
Qed.

Lemma unmapped_access_not_mine_witness :
  exists clk,
    Scenarios.basic_reset = Some clk /\
    clock_read_b RefLibc.ref clk 0x0053 0xAA = Some (1, clk, 0xAA) /\
    clock_write_b RefLibc.ref clk 0x0053 0xAA = (1, clk, []).
Proof.
  eexists. split; [vm_compute; reflexivity|].
  apply unmapped_access_not_mine. vm_compute. reflexivity.
Defined.

(** The calibration constants are read-only: a write to any of their
    addresses is not handled either and changes nothing. *)
Lemma calibration_constants_not_written (L : libc) (clk : clock)
  (addr data : Z) :
  CALDCO_16MHZ <= addr <= CALBC1_1MHZ ->
  clock_write_b L clk addr data = (1, clk, []).
Proof.
  intros H. unfold clock_write_b. unfold_addresses.
  case_addresses; try lia. reflexivity.
Qed.

(** ** Formatting *)

(** The digit loop of [to_frequency] leaves by its own condition: with [n]
    passes of fuel for a value below [10^n], more fuel changes nothing.
    Ten passes cover every [uint32_t]. *)
Lemma emit_digits_fuel (n : nat) :
  forall (fuel : nat) (hz digit len : Z) (buf : list ascii),
    0 <= hz < 10 ^ Z.of_nat n -> (n <= fuel)%nat ->
    emit_digits fuel hz digit len buf = emit_digits n hz digit len buf.
Proof.
  induction n as [|n IH]; intros fuel hz digit len buf Hhz Hf.
  - assert (hz = 0) by (simpl in Hhz; lia). subst hz.
    destruct fuel; reflexivity.
  - destruct fuel as [|fuel]; [lia|].
    cbn [emit_digits].
    destruct ((0 <? hz / 10) && _); [|reflexivity].
    apply IH; [|lia].
    rewrite Nat2Z.inj_succ, Z.pow_succ_r in Hhz by lia.
    split; [apply Z.div_pos; lia|].
    apply Z.div_lt_upper_bound; lia.
Qed.

(** ** Configuration *)

Ltac case_conditions :=
  repeat match goal with
         | |- context [if ?b then _ else _] => destruct b
         | |- context [match ?x with Some _ => _ | None => _ end] =>
             destruct x
         end.

Lemma config_frequency_atomic (L : libc) (clk : clock) (hz : hz_member)
  (arg_text : string) (ret : Z) (clk' : clock) (out : list message)
  (rest : string) :
  config_frequency L clk hz arg_text = (ret, clk', out, rest) ->
  ret <> 0 -> clk' = clk.
Proof.
  unfold config_frequency.
  destruct (get_arg arg_text) as [[freq_text|] rest0].
  - destruct (scan_frequency freq_text 0 (-1)) as [[freq frac] p].
    case_conditions; intros H Hr; inversion H; subst; congruence.
  - intros H _. now inversion H.
Qed.

Lemma config_ratio_atomic (L : libc) (errno : Z) (clk : clock)
  (data : ratio_member) (arg_text : string) (ret : Z) (clk' : clock)
  (out : list message) (rest : string) :
  config_ratio L errno clk data arg_text = (ret, clk', out, rest) ->
  ret <> 0 -> clk' = clk.
Proof.
  unfold config_ratio.
  destruct (get_arg arg_text) as [[double_text|] rest0].
  - destruct (strtod L double_text) as [[value next] range].
    case_conditions; intros H Hr; inversion H; subst; congruence.
  - intros H _. now inversion H.
Qed.

(** C10: a [config] call that fails (status -1: missing argument,
    malformed frequency or ratio, ratio out of range, unknown or
    family-inapplicable key) returns the device exactly as it was given:
    parameters, registers, derived frequencies and accumulators. *)
Theorem config_failure_atomic (L : libc) (errno : Z) (clk : clock)
  (param arg_text : string) (ret : Z) (clk' : clock) (out : list message)
  (rest : string) :
  clock_config L errno clk param arg_text = (ret, clk', out, rest) ->
  ret = -1 -> clk' = clk.
Proof.
  intros H Hr. assert (Hn : ret <> 0) by lia. clear Hr.
  unfold clock_config in H. revert H.
  repeat match goal with
         | |- context [if ?b then _ else _] => destruct b
         end;
    intros H;
    try (eapply config_frequency_atomic; eassumption);
    try (eapply config_ratio_atomic; eassumption).
  now inversion H.
Qed.

Lemma config_failure_atomic_witness :
  exists clk,
    Scenarios.basic_reset = Some clk /\
    fst (fst (fst (clock_config RefLibc.ref 0 clk "dco7_3" "1MHz"))) = -1 /\
    snd (fst (fst (clock_config RefLibc.ref 0 clk "dco7_3" "1MHz"))) = clk.
Proof.
  eexists. split; [vm_compute; reflexivity|].
  split; [vm_compute; reflexivity|].
  eapply (config_failure_atomic RefLibc.ref 0 _ "dco7_3" "1MHz" (-1)).
  - vm_compute. reflexivity.
  - reflexivity.
Defined.

(** A ratio call that succeeds stores the value [strtod] produced, and
    that value passed both comparisons of the code. *)
Lemma config_ratio_stores (L : libc) (errno : Z) (clk : clock)
  (data : ratio_member) (arg_text : string) (clk' : clock)
  (out : list message) (rest : string) :
  config_ratio L errno clk data arg_text = (0, clk', out, rest) ->
  exists tok value range,
    fst (get_arg arg_text) = Some tok /\
    strtod L tok = (value, EmptyString, range) /\
    (value <=? 1.0)%float = false /\ (1.8 <=? value)%float = false /\
    clk' = update_clock_frequencies L (set_ratio data value clk).
Proof.
  unfold config_ratio.
  destruct (get_arg arg_text) as [[tok|] rest0]; [|intros H; inversion H].
  destruct (strtod L tok) as [[value next] range] eqn:Es.
  destruct next as [|c next]; cbn [negb orb].
  - destruct ((if range then ERANGE else errno) =? ERANGE);
      [intros H; discriminate H|].
    destruct (value <=? 1.0)%float eqn:E1; [intros H; discriminate H|].
    destruct (1.8 <=? value)%float eqn:E2; [intros H; discriminate H|].
    intros H. inversion H. subst.
    exists tok, value, range. repeat split; assumption || reflexivity.
  - intros H. discriminate H.
Qed.

(** With [ERANGE] left in [errno] by an earlier call, no ratio is
    accepted: the code tests [errno] without clearing it first. *)
Lemma config_ratio_stale_errno (L : libc) (clk : clock) (data : ratio_member)
  (arg_text : string) :
  fst (fst (fst (config_ratio L ERANGE clk data arg_text))) = -1.
Proof.
  unfold config_ratio.
  destruct (get_arg arg_text) as [[tok|] rest0]; [|reflexivity].
  destruct (strtod L tok) as [[value next] range].
  replace ((if range then ERANGE else ERANGE) =? ERANGE) with true
    by (now destruct range).
  rewrite orb_true_r. reflexivity.
Qed.

(** The bounds on the examples of the specification: "1.0" and "1.8" are
    refused with the value in the message, "1.5" is stored. *)
Lemma config_ratio_examples :
  exists clk,
    Scenarios.basic_reset = Some clk /\
    clock_config RefLibc.ref 0 clk "srsel" "1.0"
    = (-1, clk,
       [Err (TAG ++ "config: must be greater than 1: %g" ++ nl)
            [ADouble 1.0]], EmptyString) /\
    clock_config RefLibc.ref 0 clk "srsel" "1.8"
    = (-1, clk,
       [Err (TAG ++ "config: must be less than 1.8: %g" ++ nl)
            [ADouble 1.8]], EmptyString) /\
    fst (fst (fst (clock_config RefLibc.ref 0 clk "srsel" "1.5"))) = 0 /\
    srsel (snd (fst (fst (clock_config RefLibc.ref 0 clk "srsel" "1.5"))))
    = 1.5%float.
Proof.
  eexists. split; [vm_compute; reflexivity|].
  repeat split; vm_compute; reflexivity.
Qed.

(** C7 (the code's behaviour where the claim fails): the token "nan" is no
    decimal between 1.0 and 1.8, yet [config] with key [srsel] returns 0
    and stores the NaN: a NaN is neither [<= 1.0] nor [>= 1.8], the only
    two tests of [config_ratio].  Once the range field leaves its
    reference value the oscillator frequency computed from that ratio is
    no frequency at all. *)
Theorem config_ratio_accepts_nan :
  exists clk clk' clk'',
    Scenarios.basic_plus_reset = Some clk /\
    clock_config RefLibc.ref 0 clk "srsel" "nan" = (0, clk', [], EmptyString) /\
    srsel clk' = nan /\
    clock_write_b RefLibc.ref clk' BCSCTL1 0x86 = (0, clk'', []) /\
    dco_hz clk'' = INT32_MIN.
Proof.
  do 3 eexists. split; [vm_compute; reflexivity|].
  repeat split; vm_compute; reflexivity.
Qed.

(** ** The oscillator model at modulation 0 *)

(** On a freshly created Basic device the model at tap 3, modulation 0,
    range 4 gives the default baseline, 750 kHz, before and after
    [reset]. *)
Lemma calc_dcoclk_default_baseline :
  exists clk,
    Scenarios.created "basic" = Some clk /\
    dco4_3_hz clk = 750000 /\
    calc_dcoclk RefLibc.ref clk 0x60 0x84 = 750000 /\
    dco_hz (clock_reset RefLibc.ref clk) = 750000.
Proof.
  eexists. split; [vm_compute; reflexivity|].
  repeat split; vm_compute; reflexivity.
Qed.

(** C5 (the code's behaviour where the claim fails): on a Basic device
    whose baseline is configured to 747010 Hz, the model at tap 3,
    modulation 0, range 4 returns 747009, not the baseline: the quotient
    [32*f*f' / (32*f')] is rounded below [f] and the conversion to
    [int32_t] truncates it.  The reset-state oscillator output is that
    same 747009. *)
Theorem calc_dcoclk_below_baseline :
  exists clk,
    Scenarios.basic_747010 = Some clk /\
    dco4_3_hz clk = 747010 /\
    dcoctl clk = 0x60 /\ bcsctl1 clk = 0x84 /\
    calc_dcoclk RefLibc.ref clk 0x60 0x84 = 747009 /\
    dco_hz clk = 747009.
Proof.
  eexists. split; [vm_compute; reflexivity|].
  repeat split; vm_compute; reflexivity.
Qed.

(** ** The calibration search *)

Section Search.

Variable L : libc.
Variable clk : clock.
Variable target_dco : Z.

Lemma bit_cal_body (s : cal_state) :
  bit (cal_body L clk target_dco s) = u16 (Z.shiftr (bit s) 1).
Proof. unfold cal_body. now destruct (_ <? _). Qed.

Lemma bit_left_halves (k : nat) :
  (k < 16)%nat -> u16 (Z.shiftr (bit_left (S k)) 1) = bit_left k.
Proof.
  intros Hk.
  do 16 (destruct k as [|k]; [vm_compute; reflexivity|]).
  lia.
Qed.

Lemma bit_left_nonzero (k : nat) : bit_left (S k) <> 0.
Proof. simpl. apply Z.pow_nonzero; lia. Qed.

Lemma cal_inv_init : cal_inv L clk target_dco (cal_init clk) [].
Proof.
  split; [constructor|]. left. split; reflexivity.
Qed.

Lemma cal_inv_body (s : cal_state) (seen : list Z) :
  cal_inv L clk target_dco s seen ->
  cal_inv L clk target_dco (cal_body L clk target_dco s) (seen ++ [cal s]).
Proof.
  intros [Hall Hbest]. unfold cal_inv, cal_body.
  fold (cal_error L clk target_dco (cal s)).
  destruct (Z.ltb_spec (cal_error L clk target_dco (cal s)) (min_delta s))
    as [Hlt | Hge]; cbn [min_delta best_cal cal].
  - split.
    + apply Forall_app. split.
      * eapply Forall_impl; [|exact Hall]. cbv beta. intros c Hc. lia.
      * constructor; [lia | constructor].
    + right. split; [apply in_or_app; right; now left | reflexivity].
  - split.
    + apply Forall_app. split; [exact Hall|].
      constructor; [exact Hge | constructor].
    + destruct Hbest as [[Hmax Hhd] | [Hin Herr]].
      * left. split; [exact Hmax|]. rewrite Hhd. now destruct seen.
      * right. split; [apply in_or_app; now left | exact Herr].
Qed.

(** With [k] passes left and at least as much fuel, the loop runs
    exactly [k] more passes and leaves with [bit = 0]. *)
Lemma cal_loop_runs (k : nat) :
  forall (fuel : nat) (s : cal_state) (seen : list Z),
    (k <= fuel)%nat -> (k <= 16)%nat ->
    bit s = bit_left k ->
    cal_inv L clk target_dco s seen ->
    exists s' seen',
      cal_loop L fuel clk target_dco s seen = Some (s', seen') /\
      bit s' = 0 /\
      List.length seen' = (List.length seen + k)%nat /\
      cal_inv L clk target_dco s' seen'.
Proof.
  induction k as [|k IH]; intros fuel s seen Hf Hk Hbit Hinv.
  - exists s, seen. simpl in Hbit.
    split; [destruct fuel; simpl; now rewrite Hbit|].
    split; [exact Hbit|]. split; [lia | exact Hinv].
  - destruct fuel as [|fuel]; [lia|].
    cbn [cal_loop].
    destruct (Z.eqb_spec (bit s) 0) as [E|_];
      [rewrite Hbit in E; now apply bit_left_nonzero in E|].
    destruct (IH fuel (cal_body L clk target_dco s) (seen ++ [cal s]))
      as (s' & seen' & Hrun & Hz & Hlen & Hinv'); try lia.
    + rewrite bit_cal_body, Hbit. apply bit_left_halves. lia.
    + now apply cal_inv_body.
    + exists s', seen'.
      split; [exact Hrun|]. split; [exact Hz|]. split; [|exact Hinv'].
      rewrite Hlen, length_app. simpl. lia.
Qed.

Lemma cal_init_bit : bit (cal_init clk) = bit_left (cal_passes (clock_type clk)).
Proof. unfold cal_init. destruct (clock_type clk); reflexivity. Qed.

End Search.

(** When the difference is an [int32_t] other than [INT32_MIN], the
    error the search compares is the exact absolute error. *)
Lemma cal_error_exact (L : libc) (clk : clock) (target_dco c : Z) :
  let f := calc_dcoclk L clk (u8 (Z.land c 0xff)) (u8 (Z.shiftr c 8)) in
  INT32_MIN < f - target_dco <= INT32_MAX ->
  cal_error L clk target_dco c = Z.abs (f - target_dco).
Proof.
  intros f H. unfold cal_error, cal_delta, abs32. fold f.
  unfold INT32_MIN, INT32_MAX in H.
  rewrite (s32_small (f - target_dco)) by (unfold INT32_MIN, INT32_MAX; lia).
  apply s32_small. unfold INT32_MIN, INT32_MAX. lia.
Qed.

(** The search returns, having left the loop by its condition after one
    pass per bit of the starting word. *)
Lemma cal_search_runs (L : libc) (clk : clock) (target_dco : Z) :
  exists s seen,
    cal_search L clk target_dco = Some (s, seen) /\
    bit s = 0 /\
    List.length seen = cal_passes (clock_type clk) /\
    cal_inv L clk target_dco s seen.
Proof.
  destruct (cal_loop_runs L clk target_dco (cal_passes (clock_type clk))
              16 (cal_init clk) [])
    as (s & seen & Hrun & Hz & Hlen & Hinv).
  - destruct (clock_type clk); simpl; lia.
  - destruct (clock_type clk); simpl; lia.
  - apply cal_init_bit.
  - apply cal_inv_init.
  - exists s, seen. auto.
Qed.

(** C2 (as the code has it): for every device and target the search
    returns (it never fails and sixteen passes of fuel are never used up),
    after exactly 11 passes on Basic and 12 on Basic+, one per bit of the
    word made of the range field and the whole DCOCTL byte; the word it
    keeps is one of those evaluated, and the error the code compares (the
    [int32_t] value of [abs(delta)]) is minimal for it among all words
    evaluated; when the difference [frequency - target] of every word
    evaluated is above [INT32_MIN] and at most [INT32_MAX], the word kept
    has the minimum exact absolute error [|frequency - target|] among
    them; [calc_calibrate_dco] returns the low byte of that word at an
    even address and the high byte at an odd one. *)
Theorem calibration_search_result (L : libc) (clk : clock) (target_dco : Z) :
  exists s seen,
    cal_search L clk target_dco = Some (s, seen) /\
    bit s = 0 /\
    List.length seen = cal_passes (clock_type clk) /\
    In (best_cal s) seen /\
    Forall (fun c => cal_error L clk target_dco (best_cal s)
                     <= cal_error L clk target_dco c) seen /\
    (Forall (fun c => INT32_MIN < word_frequency L clk c - target_dco
                      <= INT32_MAX) seen ->
     Forall (fun c => Z.abs (word_frequency L clk (best_cal s) - target_dco)
                      <= Z.abs (word_frequency L clk c - target_dco)) seen) /\
    forall addr : Z,
      calc_calibrate_dco L clk addr target_dco
      = Some (u8 (if addr mod 2 =? 0 then best_cal s
                  else Z.shiftr (best_cal s) 8)).
Proof.
  destruct (cal_search_runs L clk target_dco)
    as (s & seen & Hrun & Hz & Hlen & Hall & Hbest).
  exists s, seen.
  assert (Hin : In (best_cal s) seen /\
                cal_error L clk target_dco (best_cal s) = min_delta s).
  { destruct Hbest as [[Hmax Hhd] | H]; [|exact H].
    destruct seen as [|c0 seen];
      [destruct (clock_type clk); discriminate Hlen|].
    simpl in Hhd. split; [left; congruence|].
    pose proof (Forall_inv Hall) as Hc0. cbv beta in Hc0.
    rewrite <- Hhd in Hc0.
    pose proof (abs32_le_max (cal_delta L clk target_dco (best_cal s))) as Hle.
    fold (cal_error L clk target_dco (best_cal s)) in Hle. lia. }
  destruct Hin as [Hin Herr].
  split; [exact Hrun|]. split; [exact Hz|]. split; [exact Hlen|].
  split; [exact Hin|]. split; [|split].
  - rewrite Herr. exact Hall.
  - intros Hrange. rewrite Forall_forall in Hrange, Hall |- *.
    intros c Hc.
    pose proof (cal_error_exact L clk target_dco c (Hrange c Hc)) as Ec.
    pose proof (cal_error_exact L clk target_dco (best_cal s)
                  (Hrange _ Hin)) as Eb.
    cbv zeta in Ec, Eb. unfold word_frequency.
    rewrite <- Ec, <- Eb, Herr. exact (Hall c Hc).
  - intros addr. unfold calc_calibrate_dco. now rewrite Hrun.
Qed.

Lemma calibration_search_result_witness :
  exists clk s seen,
    Scenarios.basic_plus_reset = Some clk /\
    cal_search RefLibc.ref clk 1000000 = Some (s, seen) /\
    Forall (fun c => INT32_MIN < word_frequency RefLibc.ref clk c - 1000000
                     <= INT32_MAX) seen /\
    Forall (fun c =>
              Z.abs (word_frequency RefLibc.ref clk (best_cal s) - 1000000)
              <= Z.abs (word_frequency RefLibc.ref clk c - 1000000)) seen.
Proof.
  eexists.
  match goal with
  | |- exists s seen, ?E = Some ?c /\ _ =>
      assert (Hc : E = Some c) by (vm_compute; reflexivity);
      destruct (calibration_search_result RefLibc.ref c 1000000)
        as (s & seen & Hrun & _ & _ & _ & _ & Htrue & _)
  end.
  exists s, seen. split; [exact Hc|]. split; [exact Hrun|].
  match type of Htrue with
  | ?R -> _ => assert (Hrange : R)
  end.
  { vm_compute in Hrun. inversion Hrun. subst s seen.
    repeat (apply Forall_cons;
            [vm_compute; split; [reflexivity | discriminate]|]).
    apply Forall_nil. }
  split; [exact Hrange | exact (Htrue Hrange)].
Defined.

(** C2 (counterexamples).  To "exactly 8 steps": on a Basic+ device just
    reset, the search for the 1 MHz constants evaluates 12 words.  To
    "minimum absolute error": on a Basic+ device whose baseline was
    configured as 3294967296 (stored as -1000000000), the search for
    target 0 evaluates the words 2048 and 3072; the frequency of 3072
    does not fit the cast and comes out as [INT32_MIN], so its difference
    is [INT32_MIN] and [abs] leaves it negative: the code compares
    -2147483648, takes it for the smallest error and keeps the word 3072,
    whose exact absolute error 2147483648 is larger than that of 2048. *)
Lemma calibration_search_counterexample :
  (exists clk s seen,
      Scenarios.basic_plus_reset = Some clk /\
      cal_search RefLibc.ref clk 1000000 = Some (s, seen) /\
      List.length seen = 12%nat /\
      List.length seen <> 8%nat) /\
  (exists clk s seen,
      Scenarios.wrapped_baseline = Some clk /\
      dco7_3_hz clk = -1000000000 /\
      cal_search RefLibc.ref clk 0 = Some (s, seen) /\
      In 2048 seen /\ In 3072 seen /\
      best_cal s = 3072 /\
      word_frequency RefLibc.ref clk 3072 - 0 = INT32_MIN /\
      cal_error RefLibc.ref clk 0 3072 = -2147483648 /\
      Z.abs (word_frequency RefLibc.ref clk 3072 - 0) = 2147483648 /\
      Z.abs (word_frequency RefLibc.ref clk 2048 - 0)
      < Z.abs (word_frequency RefLibc.ref clk 3072 - 0)).
Proof.
  split.
  - do 3 eexists. split; [vm_compute; reflexivity|].
    split; [vm_compute; reflexivity|].
    split; [reflexivity | discriminate].
  - do 3 eexists. split; [vm_compute; reflexivity|].
    split; [vm_compute; reflexivity|].
    split; [vm_compute; reflexivity|].
    split; [left; reflexivity|].
    split; [right; left; reflexivity|].
    repeat split; vm_compute; reflexivity.
Qed.

(** Every read returns: the calibration addresses included. *)
Lemma clock_read_b_returns (L : libc) (clk : clock) (addr data : Z) :
  exists ret v, clock_read_b L clk addr data = Some (ret, clk, v).
Proof.
  unfold clock_read_b.
  assert (C : forall t, exists v,
               calc_calibrate_dco L clk addr t = Some v).
  { intros t. unfold calc_calibrate_dco.
    destruct (cal_search_runs L clk t) as (s & seen & -> & _).
    eauto. }
  repeat match goal with
         | |- context [if ?b then _ else _] => destruct b
         end; eauto;
    destruct (clock_type clk); eauto;
    repeat match goal with
           | |- context [if ?b then _ else _] => destruct b
           end; eauto;
    match goal with
    | |- context [calc_calibrate_dco L clk addr ?t] =>
        destruct (C t) as [v ->]; eauto
    end.
Qed.

(** ** The domain stepper *)

(** What [clock_step] computes, with no condition: the 32-bit sums, C's
    truncating quotient and remainder, and the main slot as given. *)
Lemma clock_step_unfolded (clk clk' : clock) (status : Z)
  (clocks out : clocks_t) :
  clock_step clk status clocks = Some (clk', out) ->
  let d := SIMIO_MCLK clocks * mclk_hz clk in
  SIMIO_MCLK out = SIMIO_MCLK clocks /\
  SIMIO_ACLK out = Z.quot (s32 (aclk_counter clk + d)) (aclk_hz clk) /\
  SIMIO_SMCLK out = Z.quot (s32 (smclk_counter clk + d)) (smclk_hz clk) /\
  clk' = set_counters (Z.rem (s32 (aclk_counter clk + d)) (aclk_hz clk))
                      (Z.rem (s32 (smclk_counter clk + d)) (smclk_hz clk))
                      clk.
Proof.
  intros H. cbv zeta. unfold clock_step, div32, rem32 in H.
  set (d := SIMIO_MCLK clocks * mclk_hz clk) in *.
  assert (E : forall r, s32 (u32 (u32 r + u32 (s32 d))) = s32 (r + d)).
  { intros r. now rewrite s32_u32, u32_s32, <- s32_u32, u32_add_l,
      u32_add_r, s32_u32. }
  rewrite !E in H.
  repeat match type of H with
         | context [if ?b then _ else _] => destruct b
         end; try discriminate H.
  inversion H. subst. simpl. auto.
Qed.

(** In range the step returns, with the exact quotients and remainders. *)
Lemma step_in_range (clk : clock) (status : Z) (clocks : clocks_t) :
  0 < aclk_hz clk -> 0 < smclk_hz clk ->
  0 <= aclk_counter clk + SIMIO_MCLK clocks * mclk_hz clk <= INT32_MAX ->
  0 <= smclk_counter clk + SIMIO_MCLK clocks * mclk_hz clk <= INT32_MAX ->
  clock_step clk status clocks
  = Some (set_counters
            ((aclk_counter clk + SIMIO_MCLK clocks * mclk_hz clk)
             mod aclk_hz clk)
            ((smclk_counter clk + SIMIO_MCLK clocks * mclk_hz clk)
             mod smclk_hz clk)
            clk,
          MkClocks
            (SIMIO_MCLK clocks)
            ((smclk_counter clk + SIMIO_MCLK clocks * mclk_hz clk)
             / smclk_hz clk)
            ((aclk_counter clk + SIMIO_MCLK clocks * mclk_hz clk)
             / aclk_hz clk)).
Proof.
  intros Ha Hs Hra Hrs. unfold clock_step.
  rewrite !accumulate_exact by (unfold INT32_MIN, INT32_MAX in *; lia).
  unfold div32, rem32.
  replace (aclk_hz clk =? 0) with false by (symmetry; apply Z.eqb_neq; lia).
  replace (smclk_hz clk =? 0) with false by (symmetry; apply Z.eqb_neq; lia).
  replace (aclk_hz clk =? -1) with false by (symmetry; apply Z.eqb_neq; lia).
  replace (smclk_hz clk =? -1) with false by (symmetry; apply Z.eqb_neq; lia).
  rewrite !andb_false_r. cbn [orb].
  rewrite !Z.quot_div_nonneg, !Z.rem_mod_nonneg by lia.
  reflexivity.
Qed.

(** C3 (as the code has it): when both domain frequencies are positive
    and, for each domain, [r + elapsed * main_hz] lies between 0 and
    [INT32_MAX], [step] returns; it writes [(r + elapsed * main_hz) / hz]
    (integer division) into that domain's slot, leaves the main slot as
    given, and changes nothing in the device but the two accumulators,
    which become [(r + elapsed * main_hz) mod hz]. *)
Theorem clock_step_elapsed (clk : clock) (status : Z) (clocks : clocks_t) :
  0 < aclk_hz clk -> 0 < smclk_hz clk ->
  0 <= aclk_counter clk + SIMIO_MCLK clocks * mclk_hz clk <= INT32_MAX ->
  0 <= smclk_counter clk + SIMIO_MCLK clocks * mclk_hz clk <= INT32_MAX ->
  clock_step clk status clocks
  = Some (set_counters
            ((aclk_counter clk + SIMIO_MCLK clocks * mclk_hz clk)
             mod aclk_hz clk)
            ((smclk_counter clk + SIMIO_MCLK clocks * mclk_hz clk)
             mod smclk_hz clk)
            clk,
          MkClocks
            (SIMIO_MCLK clocks)
            ((smclk_counter clk + SIMIO_MCLK clocks * mclk_hz clk)
             / smclk_hz clk)
            ((aclk_counter clk + SIMIO_MCLK clocks * mclk_hz clk)
             / aclk_hz clk)).
Proof.
  intros Ha Hs Hra Hrs. unfold clock_step.
  rewrite !accumulate_exact by (unfold INT32_MIN, INT32_MAX in *; lia).
  unfold div32, rem32.
  replace (aclk_hz clk =? 0) with false by (symmetry; apply Z.eqb_neq; lia).
  replace (smclk_hz clk =? 0) with false by (symmetry; apply Z.eqb_neq; lia).
  replace (aclk_hz clk =? -1) with false by (symmetry; apply Z.eqb_neq; lia).
  replace (smclk_hz clk =? -1) with false by (symmetry; apply Z.eqb_neq; lia).
  rewrite !andb_false_r. cbn [orb].
  rewrite !Z.quot_div_nonneg, !Z.rem_mod_nonneg by lia.
  reflexivity.
Qed.

Lemma clock_step_elapsed_witness :
  exists clk,
    Scenarios.watch_crystal_stepped = Some clk /\
    clock_step clk 0 (MkClocks 3 7 7)
    = Some (set_counters 5248 0 clk, MkClocks 3 3 105).
Proof.
  eexists. split; [vm_compute; reflexivity|].
  rewrite clock_step_elapsed; [reflexivity | | | | ]; vm_compute;
    try reflexivity; split; discriminate.
Defined.

(** C3 (counterexample): on a device with a 2 GHz main and sub-main
    source and a 1.5 GHz auxiliary source, holding an auxiliary remainder
    of 500000000 after its first tick, one more main tick gives the
    auxiliary slot -1 and the remainder -294967296, where the claim's
    arithmetic gives 1 and 1000000000: the sum 2500000000 does not fit
    the 32-bit accumulator. *)
Lemma clock_step_wraps :
  exists clk clk' out,
    Scenarios.gigahertz_stepped = Some clk /\
    mclk_hz clk = 2000000000 /\ aclk_hz clk = 1500000000 /\
    aclk_counter clk = 500000000 /\
    clock_step clk 0 (MkClocks 1 0 0) = Some (clk', out) /\
    (aclk_counter clk + 1 * mclk_hz clk) / aclk_hz clk = 1 /\
    SIMIO_ACLK out = -1 /\
    (aclk_counter clk + 1 * mclk_hz clk) mod aclk_hz clk = 1000000000 /\
    aclk_counter clk' = -294967296.
Proof.
  do 3 eexists. split; [vm_compute; reflexivity|].
  split; [vm_compute; reflexivity|].
  repeat split; vm_compute; reflexivity.
Qed.

(** C4 (as the code has it): [reset] zeroes both accumulators; and a
    [step] made with positive domain frequencies and, for each domain,
    [0 <= r + elapsed * main_hz <= INT32_MAX] returns, leaves the
    frequencies as they were and each remainder at least 0 and below its
    domain's frequency. *)
Theorem accumulators_after_reset_and_step :
  (forall (L : libc) (clk : clock),
      aclk_counter (clock_reset L clk) = 0 /\
      smclk_counter (clock_reset L clk) = 0) /\
  (forall (clk : clock) (status : Z) (clocks : clocks_t),
      0 < aclk_hz clk -> 0 < smclk_hz clk ->
      0 <= aclk_counter clk + SIMIO_MCLK clocks * mclk_hz clk <= INT32_MAX ->
      0 <= smclk_counter clk + SIMIO_MCLK clocks * mclk_hz clk <= INT32_MAX ->
      exists (clk' : clock) (out : clocks_t),
        clock_step clk status clocks = Some (clk', out) /\
        aclk_hz clk' = aclk_hz clk /\ smclk_hz clk' = smclk_hz clk /\
        0 <= aclk_counter clk' < aclk_hz clk' /\
        0 <= smclk_counter clk' < smclk_hz clk').
Proof.
  split.
  - intros L clk. unfold clock_reset.
    match goal with
    | |- context [update_clock_frequencies L ?c] =>
        destruct (update_keeps_counters L c) as [-> ->]
    end.
    destruct clk as [ty lf xt vl d4 d7 sr sd dh mh sh ah ac sc r0 r1 r2 r3].
    destruct ty; simpl; auto.
  - intros clk status clocks Ha Hs Hra Hrs.
    do 2 eexists. split; [now apply step_in_range|].
    destruct clk as [ty lf xt vl d4 d7 sr sd dh mh sh ah ac sc r0 r1 r2 r3].
    cbn [aclk_hz smclk_hz aclk_counter smclk_counter mclk_hz set_counters]
      in *.
    split; [reflexivity|]. split; [reflexivity|].
    split; apply Z.mod_pos_bound; assumption.
Qed.

Lemma accumulators_after_reset_and_step_witness :
  exists clk clk' out,
    Scenarios.watch_crystal_stepped = Some clk /\
    clock_step clk 0 (MkClocks 3 7 7) = Some (clk', out) /\
    0 <= aclk_counter clk' < aclk_hz clk' /\
    0 <= smclk_counter clk' < smclk_hz clk'.
Proof.
  eexists.
  match goal with
  | |- exists clk' out, ?E = Some ?c /\ _ =>
      assert (Hc : E = Some c) by (vm_compute; reflexivity);
      destruct (proj2 accumulators_after_reset_and_step c 0 (MkClocks 3 7 7))
        as (clk' & out & Hstep & _ & _ & Ha & Hs)
  end.
  - vm_compute. reflexivity.
  - vm_compute. reflexivity.
  - vm_compute. split; discriminate.
  - vm_compute. split; discriminate.
  - exists clk', out. auto.
Defined.

(** C4 (counterexample): a Basic+ device with a 32768 Hz crystal is
    reset and steps one main tick, which leaves the auxiliary remainder
    25888, below the auxiliary frequency 32768.  A write of 0xB7 to
    BCSCTL1 (auxiliary divider /8) then makes the auxiliary frequency 4096
    and leaves the remainder: it is no longer below the domain's current
    frequency, with every domain frequency positive. *)
Lemma accumulator_not_below_frequency_after_write :
  exists clk clk',
    Scenarios.watch_crystal_stepped = Some clk /\
    0 <= aclk_counter clk < aclk_hz clk /\
    clock_write_b RefLibc.ref clk BCSCTL1 0xB7 = (0, clk', []) /\
    0 < aclk_hz clk' /\ 0 < smclk_hz clk' /\ 0 < mclk_hz clk' /\
    aclk_hz clk' = 4096 /\
    aclk_counter clk' = 25888 /\
    ~ aclk_counter clk' < aclk_hz clk'.
Proof.
  do 2 eexists. split; [vm_compute; reflexivity|].
  split; [vm_compute; split; [discriminate | reflexivity]|].
  split; [vm_compute; reflexivity|].
  repeat split; try (vm_compute; reflexivity).
  vm_compute. intros H. discriminate H.
Qed.

(* ================================================================== *)
(** * Further properties of the code *)

(** ** The tokenizer *)

Lemma c_str_length (s : string) : (String.length (c_str s) <= String.length s)%nat.
Proof.
  induction s as [|c r IH]; simpl; [lia|].
  destruct (code c =? 0); simpl; lia.
Qed.

Lemma skip_space_length (s : string) :
  (String.length (skip_space s) <= String.length s)%nat.
Proof.
  induction s as [|c r IH]; simpl; [lia|].
  destruct (isspace c); simpl; lia.
Qed.

Lemma skip_space_at_token (s : string) :
  match skip_space s with
  | EmptyString => True
  | String c _ => isspace c = false
  end.
Proof.
  induction s as [|c r IH]; simpl; [exact I|].
  destruct (isspace c) eqn:E; [exact IH | simpl; exact E].
Qed.

Lemma scan_length (s : string) :
  forall (qstate qval : Z) (out : list ascii),
    (String.length (snd (scan qstate qval out s)) <= String.length s)%nat.
Proof.
  induction s as [|c r IH]; intros qstate qval out; [simpl; lia|].
  cbn [scan].
  repeat match goal with
         | |- context [if ?b then _ else _] => destruct b
         end;
    try (cbn [snd String.length]; lia);
    match goal with
    | |- context [scan ?q ?v ?o r] =>
        specialize (IH q v o); cbn [String.length]; lia
    end.
Qed.

Lemma blank_c_str (ws s : string) :
  blank ws = true -> c_str (ws ++ s) = (ws ++ c_str s)%string.
Proof.
  induction ws as [|c r IH]; simpl; [reflexivity|].
  intros H. apply andb_prop in H. destruct H as [Hc Hr].
  destruct (Z.eqb_spec (code c) 0) as [E|_].
  - unfold isspace in Hc. rewrite E in Hc. discriminate Hc.
  - now rewrite IH.
Qed.

Lemma blank_skip_space (ws s : string) :
  blank ws = true -> skip_space (ws ++ s) = skip_space s.
Proof.
  induction ws as [|c r IH]; simpl; [reflexivity|].
  intros H. apply andb_prop in H. destruct H as [Hc Hr].
  rewrite Hc. now apply IH.
Qed.

Lemma plain_c_str (tok s : string) :
  plain tok = true -> c_str (tok ++ s) = (tok ++ c_str s)%string.
Proof.
  induction tok as [|c r IH]; simpl; [reflexivity|].
  intros H. apply andb_prop in H. destruct H as [Hc Hr].
  unfold plain_char in Hc.
  destruct (code c =? 0); [now rewrite !andb_false_r in Hc|].
  now rewrite IH.
Qed.

Lemma verbatim_c_str (tok s : string) :
  verbatim tok = true -> c_str (tok ++ s) = (tok ++ c_str s)%string.
Proof.
  induction tok as [|c r IH]; simpl; [reflexivity|].
  intros H. apply andb_prop in H. destruct H as [Hc Hr].
  unfold verbatim_char in Hc.
  destruct (code c =? 0); [now rewrite !andb_false_r in Hc|].
  now rewrite IH.
Qed.

Lemma at_break_c_str (s : string) :
  at_break s = true -> at_break (c_str s) = true.
Proof.
  destruct s as [|c r]; simpl; [reflexivity|].
  intros H. destruct (Z.eqb_spec (code c) 0); [reflexivity | exact H].
Qed.

(** Outside quotes the plain characters are copied one by one, up to the
    break. *)
Lemma scan_plain (tok : string) :
  forall (qval : Z) (out : list ascii) (t : string),
    plain tok = true -> at_break t = true ->
    scan 0 qval out (tok ++ t)
    = (rev (list_ascii_of_string tok) ++ out, t).
Proof.
  induction tok as [|c r IH]; intros qval out t Hp Ht.
  - simpl. destruct t as [|c t]; [reflexivity|].
    simpl in Ht. cbn [scan]. simpl. now rewrite Ht.
  - simpl in Hp. apply andb_prop in Hp. destruct Hp as [Hc Hr].
    unfold plain_char in Hc.
    cbn [append scan]. change (0 =? 0) with true. cbv iota.
    destruct (isspace c); [discriminate Hc|].
    destruct (is_quote c); [discriminate Hc|].
    rewrite IH by assumption.
    cbn [list_ascii_of_string rev]. now rewrite <- app_assoc.
Qed.

(** Inside quotes the verbatim characters are copied one by one. *)
Lemma scan_verbatim (body : string) :
  forall (qval : Z) (out : list ascii) (t : string),
    verbatim body = true ->
    scan 1 qval out (body ++ t)
    = scan 1 qval (rev (list_ascii_of_string body) ++ out) t.
Proof.
  induction body as [|c r IH]; intros qval out t Hp; [reflexivity|].
  simpl in Hp. apply andb_prop in Hp. destruct Hp as [Hc Hr].
  unfold verbatim_char in Hc.
  cbn [append scan]. change (1 =? 0) with false. change (1 =? 1) with true.
  cbv iota.
  destruct (is_quote c); [discriminate Hc|].
  destruct (is_backslash c); [now rewrite andb_false_r in Hc|].
  rewrite IH by assumption.
  cbn [list_ascii_of_string rev]. now rewrite <- app_assoc.
Qed.

Lemma append_empty_r (s : string) : (s ++ EmptyString)%string = s.
Proof. induction s as [|c r IH]; simpl; [reflexivity | now rewrite IH]. Qed.

Lemma append_length (s t : string) :
  String.length (s ++ t) = (String.length s + String.length t)%nat.
Proof. induction s as [|c r IH]; simpl; [reflexivity | now rewrite IH]. Qed.

Lemma plain_no_nul (tok : string) : plain tok = true -> c_str tok = tok.
Proof.
  intros H. pose proof (plain_c_str tok EmptyString H) as E.
  simpl in E. now rewrite !append_empty_r in E.
Qed.

Lemma verbatim_no_nul (tok : string) : verbatim tok = true -> c_str tok = tok.
Proof.
  intros H. pose proof (verbatim_c_str tok EmptyString H) as E.
  simpl in E. now rewrite !append_empty_r in E.
Qed.

Lemma rev_rev_string (s : string) :
  string_of_list_ascii (rev (rev (list_ascii_of_string s) ++ []))  = s.
Proof.
  now rewrite app_nil_r, rev_involutive, string_of_list_ascii_of_string.
Qed.

Lemma get_arg_of_blank (text : string) :
  blank text = true -> get_arg text = (None, text).
Proof.
  intros H. unfold get_arg.
  pose proof (blank_c_str text EmptyString H) as E.
  rewrite append_empty_r in E. simpl in E. rewrite append_empty_r in E.
  rewrite E.
  pose proof (blank_skip_space text EmptyString H) as E'.
  rewrite append_empty_r in E'. simpl in E'. now rewrite E'.
Qed.

(** X1: on a text of white space only (the empty text included)
    [get_arg] returns NULL and leaves the cursor where it was. *)
Theorem get_arg_blank (text : string) :
  blank text = true -> get_arg text = (None, text).
Proof. exact (get_arg_of_blank text). Qed.

Lemma get_arg_blank_witness :
  get_arg (String (chr 32) (String (chr 9) (String (chr 10) EmptyString)))
  = (None, String (chr 32) (String (chr 9) (String (chr 10) EmptyString))).
Proof. apply get_arg_blank. vm_compute. reflexivity. Defined.

Lemma get_arg_of_plain (ws tok tail : string) :
  blank ws = true -> plain tok = true -> tok <> EmptyString ->
  at_break tail = true ->
  get_arg (ws ++ tok ++ tail) = (Some tok, skip_space (c_str tail)).
Proof.
  intros Hws Htok Hne Htail. unfold get_arg.
  rewrite blank_c_str, blank_skip_space by assumption.
  rewrite plain_c_str by assumption.
  destruct tok as [|c r]; [congruence|].
  assert (Hc : isspace c = false).
  { simpl in Htok. unfold plain_char in Htok.
    destruct (isspace c); [discriminate Htok | reflexivity]. }
  cbn [append skip_space]. rewrite Hc.
  change (String c (r ++ c_str tail)%string)
    with (String c r ++ c_str tail)%string.
  rewrite scan_plain by (try assumption; now apply at_break_c_str).
  rewrite rev_rev_string. now rewrite plain_no_nul.
Qed.

(** X2: a bare token (no white space, quote or NUL in it), after any
    leading white space and up to the end of the text or the next white
    space, is returned as it is; the cursor is left after the white space
    that follows it. *)
Theorem get_arg_plain (ws tok tail : string) :
  blank ws = true -> plain tok = true -> tok <> EmptyString ->
  at_break tail = true ->
  get_arg (ws ++ tok ++ tail) = (Some tok, skip_space (c_str tail)).
Proof. exact (get_arg_of_plain ws tok tail). Qed.

Lemma get_arg_plain_witness :
  get_arg "  32.768kHz  sdco 1.1"
  = (Some "32.768kHz"%string, "sdco 1.1"%string).
Proof.
  apply (get_arg_plain "  " "32.768kHz" "  sdco 1.1");
    try (vm_compute; reflexivity).
  discriminate.
Defined.

(** X3: when [get_arg] returns a token, the cursor has moved forward (the
    text left is strictly shorter) and does not stand on white space, so
    a caller taking tokens in a loop consumes the text. *)
Theorem get_arg_progress (text tok rest : string) :
  get_arg text = (Some tok, rest) ->
  (String.length rest < String.length text)%nat /\
  match rest with
  | EmptyString => True
  | String c _ => isspace c = false
  end.
Proof.
  unfold get_arg. intros H.
  pose proof (skip_space_at_token (c_str text)) as Hstart.
  pose proof (skip_space_length (c_str text)) as Hlen.
  pose proof (c_str_length text) as Hlen'.
  destruct (skip_space (c_str text)) as [|c r] eqn:E; [discriminate H|].
  cbn [scan] in H. change (0 =? 0) with true in H. cbv iota in H.
  rewrite Hstart in H.
  assert (Hr : exists q v o,
             (if is_quote c then scan 1 0 [] r else scan 0 0 [c] r)
             = scan q v o r).
  { destruct (is_quote c); eauto. }
  destruct Hr as (q & v & o & Hr). rewrite Hr in H.
  pose proof (scan_length r q v o) as Hs.
  destruct (scan q v o r) as [out r'] eqn:Es.
  inversion H. subst. clear H. simpl in Hs, Hlen.
  pose proof (skip_space_length r') as Hk.
  split; [lia|].
  exact (skip_space_at_token r').
Qed.

Lemma get_arg_progress_witness :
  (String.length "b c" < String.length " a  b c")%nat /\
  isspace "b" = false.
Proof.
  apply (get_arg_progress " a  b c" "a" "b c"). vm_compute. reflexivity.
Defined.

(** X4: between double quotes every character other than a quote, a
    backslash or a NUL is copied as it is, white space included: the
    quoted body is the token. *)
Theorem get_arg_quoted (ws body tail : string) :
  blank ws = true -> verbatim body = true -> at_break tail = true ->
  get_arg (ws ++ quote ++ body ++ quote ++ tail)
  = (Some body, skip_space (c_str tail)).
Proof.
  intros Hws Hbody Htail. unfold get_arg.
  rewrite blank_c_str, blank_skip_space by assumption.
  change (quote ++ body ++ quote ++ tail)%string
    with (String (chr 34) (body ++ String (chr 34) tail)).
  cbn [c_str]. change (code (chr 34) =? 0) with false. cbv iota.
  rewrite verbatim_c_str by assumption.
  cbn [c_str]. change (code (chr 34) =? 0) with false. cbv iota.
  cbn [skip_space]. change (isspace (chr 34)) with false. cbv iota.
  cbn [scan]. change (0 =? 0) with true. cbv iota.
  change (isspace (chr 34)) with false.
  change (is_quote (chr 34)) with true. cbv iota.
  rewrite scan_verbatim by assumption.
  cbn [scan]. change (1 =? 0) with false. change (1 =? 1) with true.
  change (is_quote (chr 34)) with true. cbv iota.
  pose proof (scan_plain EmptyString 0
                (rev (list_ascii_of_string body) ++ []) (c_str tail)
                eq_refl (at_break_c_str tail Htail)) as E.
  cbn [append list_ascii_of_string rev app] in E. rewrite E.
  rewrite rev_rev_string. now rewrite verbatim_no_nul.
Qed.

Lemma get_arg_quoted_witness :
  get_arg (quote ++ "a b" ++ quote ++ " c") = (Some "a b"%string, "c"%string).
Proof.
  apply (get_arg_quoted "" "a b" " c"); vm_compute; reflexivity.
Defined.

(** ** Construction *)

Lemma tolower_plain (c : ascii) :
  plain_char (tolower c) = true -> plain_char c = true.
Proof.
  unfold tolower. destruct (isupper c) eqn:U; [|auto].
  intros _. unfold isupper in U. unfold plain_char, isspace, is_quote.
  apply andb_prop in U. destruct U as [U1 U2].
  apply Z.leb_le in U1. apply Z.leb_le in U2.
  repeat match goal with
         | |- context [Z.eqb ?a ?b] => destruct (Z.eqb_spec a b); try lia
         | |- context [Z.leb ?a ?b] => destruct (Z.leb_spec a b); try lia
         end; reflexivity.
Qed.

Lemma lower_plain (t : string) : plain (lower t) = true -> plain t = true.
Proof.
  induction t as [|c r IH]; simpl; [auto|].
  intros H. apply andb_prop in H. destruct H as [Hc Hr].
  now rewrite (tolower_plain c Hc), IH.
Qed.

Lemma lower_nonempty (t : string) :
  lower t <> EmptyString -> t <> EmptyString.
Proof. destruct t; simpl; congruence. Qed.

(** X5: the family token is matched without regard to letter case, after
    leading white space and up to the next white space: any spelling of
    "basic" gives a Basic device and any spelling of "basic+" a Basic+
    device, each with its default oscillator parameters, every register,
    derived frequency and accumulator zero, and nothing printed. *)
Theorem clock_create_family (ws t tail : string) :
  blank ws = true -> at_break tail = true ->
  (lower t = "basic"%string ->
   clock_create (ws ++ t ++ tail)
   = (Some (MkClock CLOCK_TYPE_BASIC 0 0 0 750000 0 1.65 1.12
                    0 0 0 0 0 0 0 0 0 0), [], skip_space (c_str tail))) /\
  (lower t = "basic+"%string ->
   clock_create (ws ++ t ++ tail)
   = (Some (MkClock CLOCK_TYPE_BASIC_PLUS 0 0 12000 0 1140000 1.35 1.08
                    0 0 0 0 0 0 0 0 0 0), [], skip_space (c_str tail))).
Proof.
  intros Hws Htail.
  assert (G : forall name : string,
             plain name = true -> name <> EmptyString -> lower t = name ->
             get_arg (ws ++ t ++ tail) = (Some t, skip_space (c_str tail))).
  { intros name Hp Hn E. apply get_arg_of_plain; try assumption.
    - apply lower_plain. now rewrite E.
    - apply lower_nonempty. now rewrite E. }
  split; intros E; unfold clock_create.
  - rewrite (G "basic"%string eq_refl ltac:(discriminate) E).
    unfold strcaseeq. rewrite E. reflexivity.
  - rewrite (G "basic+"%string eq_refl ltac:(discriminate) E).
    unfold strcaseeq. rewrite E. reflexivity.
Qed.

Lemma clock_create_family_witness :
  clock_create " BaSiC+ extra"
  = (Some (MkClock CLOCK_TYPE_BASIC_PLUS 0 0 12000 0 1140000 1.35 1.08
                   0 0 0 0 0 0 0 0 0 0), [], "extra"%string).
Proof.
  apply (proj2 (clock_create_family " " "BaSiC+" " extra" eq_refl eq_refl)).
  reflexivity.
Defined.

(** X6: with no family token (an empty or all-white-space argument text)
    [clock_create] makes no device, prints "clock type required" and
    leaves the argument text as it was. *)
Theorem clock_create_missing (arg_text : string) :
  blank arg_text = true ->
  clock_create arg_text
  = (None, [Err (TAG ++ "clock type required" ++ nl) []], arg_text).
Proof.
  intros H. unfold clock_create. now rewrite get_arg_of_blank.
Qed.

Lemma clock_create_missing_witness :
  clock_create EmptyString
  = (None, [Err (TAG ++ "clock type required" ++ nl) []], EmptyString).
Proof. apply clock_create_missing. reflexivity. Defined.

(** ** Derived frequencies *)

(** The recomputation reads the configuration and the registers, never
    the cached frequencies. *)
Lemma update_ignores_derived (L : libc) (dh mh sh ah : Z) (c : clock) :
  update_clock_frequencies L (set_derived dh mh sh ah c)
  = update_clock_frequencies L c.
Proof. destruct c. reflexivity. Qed.

Lemma update_ignores_counters (L : libc) (ac sc : Z) (c : clock) :
  update_clock_frequencies L (set_counters ac sc c)
  = set_counters ac sc (update_clock_frequencies L c).
Proof. destruct c. reflexivity. Qed.

Lemma update_twice (L : libc) (c : clock) :
  update_clock_frequencies L (update_clock_frequencies L c)
  = update_clock_frequencies L c.
Proof.
  unfold update_clock_frequencies at 2.
  now rewrite update_ignores_derived.
Qed.

(** X7: recomputing the derived frequencies is idempotent: a second
    recomputation with registers and configuration unchanged gives the
    same device. *)
Theorem update_clock_frequencies_idempotent (L : libc) (c : clock) :
  update_clock_frequencies L (update_clock_frequencies L c)
  = update_clock_frequencies L c.
Proof. exact (update_twice L c). Qed.

(** What a successful configuration call leaves: the device with one
    parameter replaced, recomputed. *)
Lemma clock_config_success (L : libc) (errno : Z) (clk : clock)
  (param arg_text : string) (clk' : clock) (out : list message)
  (rest : string) :
  clock_config L errno clk param arg_text = (0, clk', out, rest) ->
  (exists hz v, clk' = update_clock_frequencies L (set_hz hz v clk)) \/
  (exists data v, clk' = update_clock_frequencies L (set_ratio data v clk)).
Proof.
  assert (F : forall hz,
             config_frequency L clk hz arg_text = (0, clk', out, rest) ->
             exists v, clk' = update_clock_frequencies L (set_hz hz v clk)).
  { intros hz. unfold config_frequency.
    destruct (get_arg arg_text) as [[freq_text|] rest0];
      [|intros H; discriminate H].
    destruct (scan_frequency freq_text 0 (-1)) as [[freq frac] p].
    case_conditions; intros H; try discriminate H;
      inversion H; subst; eauto. }
  assert (R : forall data,
             config_ratio L errno clk data arg_text = (0, clk', out, rest) ->
             exists v,
               clk' = update_clock_frequencies L (set_ratio data v clk)).
  { intros data H. apply config_ratio_stores in H.
    destruct H as (tok & value & range & _ & _ & _ & _ & ->). eauto. }
  unfold clock_config.
  repeat match goal with
         | |- context [if ?b then _ else _] => destruct b
         end;
    intros H; try (apply F in H; destruct H; eauto);
    try (apply R in H; destruct H; eauto).
  discriminate H.
Qed.

(** X8: the cached frequencies are never stale.  After [reset], after a
    handled write and after a successful [config], recomputing changes
    nothing: the device already holds the frequencies of its registers
    and configuration. *)
Theorem derived_frequencies_fresh (L : libc) (clk : clock) :
  update_clock_frequencies L (clock_reset L clk) = clock_reset L clk /\
  (forall (addr data : Z) (clk' : clock) (out : list message),
      clock_write_b L clk addr data = (0, clk', out) ->
      update_clock_frequencies L clk' = clk') /\
  (forall (errno : Z) (param arg_text : string) (clk' : clock)
          (out : list message) (rest : string),
      clock_config L errno clk param arg_text = (0, clk', out, rest) ->
      update_clock_frequencies L clk' = clk').
Proof.
  split; [|split].
  - unfold clock_reset. apply update_twice.
  - intros addr data clk' out. unfold clock_write_b, bcsctl3_write.
    repeat match goal with
           | |- context [if ?b then _ else _] => destruct b
           end;
      try destruct (clock_type clk);
      intros H; inversion H; subst; apply update_twice.
  - intros errno param arg_text clk' out rest H.
    apply clock_config_success in H.
    destruct H as [(hz & v & ->) | (data & v & ->)]; apply update_twice.
Qed.

Lemma derived_frequencies_fresh_witness :
  exists clk clk',
    Scenarios.basic_plus_reset = Some clk /\
    clock_write_b RefLibc.ref clk DCOCTL 0x8A = (0, clk', []) /\
    update_clock_frequencies RefLibc.ref clk' = clk'.
Proof.
  do 2 eexists. split; [vm_compute; reflexivity|].
  match goal with
  | |- clock_write_b _ ?c _ _ = _ /\ _ =>
      split; [vm_compute; reflexivity|];
      eapply (proj1 (proj2 (derived_frequencies_fresh RefLibc.ref c))
                DCOCTL 0x8A)
  end.
  vm_compute. reflexivity.
Defined.

(** ** What each operation leaves alone *)

Lemma clock_config_shape (L : libc) (errno : Z) (clk : clock)
  (param arg_text : string) :
  after_config L errno clk param arg_text = clk \/
  (exists hz v,
      after_config L errno clk param arg_text
      = update_clock_frequencies L (set_hz hz v clk)) \/
  (exists data v,
      after_config L errno clk param arg_text
      = update_clock_frequencies L (set_ratio data v clk)).
Proof.
  unfold after_config.
  assert (F : forall hz,
             snd (fst (fst (config_frequency L clk hz arg_text))) = clk \/
             exists v, snd (fst (fst (config_frequency L clk hz arg_text)))
                       = update_clock_frequencies L (set_hz hz v clk)).
  { intros hz. unfold config_frequency.
    destruct (get_arg arg_text) as [[freq_text|] rest0]; [|now left].
    destruct (scan_frequency freq_text 0 (-1)) as [[freq frac] p].
    case_conditions; simpl; eauto. }
  assert (R : forall data,
             snd (fst (fst (config_ratio L errno clk data arg_text))) = clk \/
             exists v, snd (fst (fst (config_ratio L errno clk data arg_text)))
                       = update_clock_frequencies L (set_ratio data v clk)).
  { intros data. unfold config_ratio.
    destruct (get_arg arg_text) as [[tok|] rest0]; [|now left].
    destruct (strtod L tok) as [[value next] range].
    case_conditions; simpl; eauto. }
  unfold clock_config.
  repeat match goal with
         | |- context [if ?b then _ else _] => destruct b
         end;
    try (now left);
    try (destruct (F M_lfxt1) as [E | [v E]]; rewrite E; now eauto);
    try (destruct (F M_xt2) as [E | [v E]]; rewrite E; now eauto);
    try (destruct (F M_dco4_3) as [E | [v E]]; rewrite E; now eauto);
    try (destruct (F M_vlo) as [E | [v E]]; rewrite E; now eauto);
    try (destruct (F M_dco7_3) as [E | [v E]]; rewrite E; now eauto);
    try (destruct (R M_srsel) as [E | [v E]]; rewrite E; now eauto);
    try (destruct (R M_sdco) as [E | [v E]]; rewrite E; now eauto).
Qed.

(** X9: a configuration call, whether it succeeds or fails and whatever
    the key and value, never touches the four registers, the two
    accumulators or the family. *)
Theorem clock_config_frame (L : libc) (errno : Z) (clk : clock)
  (param arg_text : string) :
  registers_of (after_config L errno clk param arg_text) = registers_of clk /\
  counters_of (after_config L errno clk param arg_text) = counters_of clk /\
  clock_type (after_config L errno clk param arg_text) = clock_type clk.
Proof.
  destruct (clock_config_shape L errno clk param arg_text)
    as [-> | [(hz & v & ->) | (data & v & ->)]].
  - auto.
  - destruct clk, hz; repeat split; reflexivity.
  - destruct clk, data; repeat split; reflexivity.
Qed.

(** X10: a register write, handled or not and whatever the address and
    byte, never touches the configuration (family, oscillator frequencies,
    ratios) or the accumulators; [reset] never touches the configuration;
    a [step] that returns changes nothing but the accumulators. *)
Theorem register_operations_frame (L : libc) (clk : clock) :
  (forall addr data : Z,
      config_of (after_write L clk addr data) = config_of clk /\
      counters_of (after_write L clk addr data) = counters_of clk) /\
  config_of (clock_reset L clk) = config_of clk /\
  (forall (status : Z) (clocks out : clocks_t) (clk' : clock),
      clock_step clk status clocks = Some (clk', out) ->
      config_of clk' = config_of clk /\
      registers_of clk' = registers_of clk /\
      derived_of clk' = derived_of clk).
Proof.
  split; [|split].
  - intros addr data. unfold after_write, clock_write_b, bcsctl3_write.
    destruct clk as [ty lf xt vl d4 d7 sr sd dh mh sh ah ac sc r0 r1 r2 r3].
    repeat match goal with
           | |- context [if ?b then _ else _] => destruct b
           end;
      destruct ty; split; reflexivity.
  - destruct clk as [ty lf xt vl d4 d7 sr sd dh mh sh ah ac sc r0 r1 r2 r3].
    destruct ty; reflexivity.
  - intros status clocks out clk' H.
    apply clock_step_unfolded in H. cbv zeta in H.
    destruct H as (_ & _ & _ & ->).
    destruct clk. repeat split; reflexivity.
Qed.

Lemma register_operations_frame_witness :
  exists clk clk' out,
    Scenarios.watch_crystal_stepped = Some clk /\
    clock_step clk 0 (MkClocks 3 7 7) = Some (clk', out) /\
    config_of clk' = config_of clk /\
    registers_of clk' = registers_of clk /\
    derived_of clk' = derived_of clk.
Proof.
  do 3 eexists. split; [vm_compute; reflexivity|].
  match goal with
  | |- clock_step ?c _ _ = _ /\ _ =>
      split; [vm_compute; reflexivity|];
      eapply (proj2 (proj2 (register_operations_frame RefLibc.ref c))
                0 (MkClocks 3 7 7))
  end.
  vm_compute. reflexivity.
Defined.

(** X11: [reset] brings the device to its power-on state whatever was
    written or stepped before: resetting after any write, or after any
    step that returned, or twice, gives the same device as resetting at
    once.  (Configuration is kept by [reset], so it is not undone.) *)
Theorem clock_reset_absorbs (L : libc) (clk : clock) :
  (forall addr data : Z,
      clock_reset L (after_write L clk addr data) = clock_reset L clk) /\
  (forall (status : Z) (clocks out : clocks_t) (clk' : clock),
      clock_step clk status clocks = Some (clk', out) ->
      clock_reset L clk' = clock_reset L clk) /\
  clock_reset L (clock_reset L clk) = clock_reset L clk.
Proof.
  split; [|split].
  - intros addr data. unfold after_write, clock_write_b, bcsctl3_write.
    destruct clk as [ty lf xt vl d4 d7 sr sd dh mh sh ah ac sc r0 r1 r2 r3].
    repeat match goal with
           | |- context [if ?b then _ else _] => destruct b
           end;
      destruct ty; reflexivity.
  - intros status clocks out clk' H.
    apply clock_step_unfolded in H. cbv zeta in H.
    destruct H as (_ & _ & _ & ->).
    destruct clk as [ty lf xt vl d4 d7 sr sd dh mh sh ah ac sc r0 r1 r2 r3].
    destruct ty; reflexivity.
  - destruct clk as [ty lf xt vl d4 d7 sr sd dh mh sh ah ac sc r0 r1 r2 r3].
    destruct ty; reflexivity.
Qed.

Lemma clock_reset_absorbs_witness :
  exists clk clk' out,
    Scenarios.watch_crystal_stepped = Some clk /\
    clock_step clk 0 (MkClocks 3 7 7) = Some (clk', out) /\
    clock_reset RefLibc.ref clk' = clock_reset RefLibc.ref clk.
Proof.
  do 3 eexists. split; [vm_compute; reflexivity|].
  match goal with
  | |- clock_step ?c _ _ = _ /\ _ =>
      split; [vm_compute; reflexivity|];
      eapply (proj1 (proj2 (clock_reset_absorbs RefLibc.ref c))
                0 (MkClocks 3 7 7))
  end.
  vm_compute. reflexivity.
Defined.

(** ** How register writes compose *)

Lemma after_write_dcoctl (L : libc) (c : clock) (v : Z) :
  after_write L c DCOCTL v = update_clock_frequencies L (set_dcoctl (u8 v) c).
Proof. reflexivity. Qed.

Lemma after_write_bcsctl1 (L : libc) (c : clock) (v : Z) :
  after_write L c BCSCTL1 v = update_clock_frequencies L (set_bcsctl1 (u8 v) c).
Proof. reflexivity. Qed.

Lemma after_write_bcsctl2 (L : libc) (c : clock) (v : Z) :
  after_write L c BCSCTL2 v = update_clock_frequencies L (set_bcsctl2 (u8 v) c).
Proof. reflexivity. Qed.

Lemma after_write_bcsctl3 (L : libc) (c : clock) (v : Z) :
  after_write L c BCSCTL3 v
  = match clock_type c with
    | CLOCK_TYPE_BASIC => c
    | CLOCK_TYPE_BASIC_PLUS => update_clock_frequencies L c
    end.
Proof.
  unfold after_write, clock_write_b. simpl. now destruct (clock_type c).
Qed.

Lemma after_write_elsewhere (L : libc) (c : clock) (addr v : Z) :
  addr <> DCOCTL -> addr <> BCSCTL1 -> addr <> BCSCTL2 -> addr <> BCSCTL3 ->
  after_write L c addr v = c.
Proof.
  intros H0 H1 H2 H3. unfold after_write, clock_write_b.
  apply Z.eqb_neq in H0, H1, H2, H3. now rewrite H0, H1, H2, H3.
Qed.

Lemma address_cases (a : Z) :
  a = DCOCTL \/ a = BCSCTL1 \/ a = BCSCTL2 \/ a = BCSCTL3 \/
  (a <> DCOCTL /\ a <> BCSCTL1 /\ a <> BCSCTL2 /\ a <> BCSCTL3).
Proof. unfold_addresses. lia. Qed.

Lemma update_after_set_dcoctl (L : libc) (v : Z) (c : clock) :
  update_clock_frequencies L (set_dcoctl v (update_clock_frequencies L c))
  = update_clock_frequencies L (set_dcoctl v c).
Proof. destruct c. reflexivity. Qed.

Lemma update_after_set_bcsctl1 (L : libc) (v : Z) (c : clock) :
  update_clock_frequencies L (set_bcsctl1 v (update_clock_frequencies L c))
  = update_clock_frequencies L (set_bcsctl1 v c).
Proof. destruct c. reflexivity. Qed.

Lemma update_after_set_bcsctl2 (L : libc) (v : Z) (c : clock) :
  update_clock_frequencies L (set_bcsctl2 v (update_clock_frequencies L c))
  = update_clock_frequencies L (set_bcsctl2 v c).
Proof. destruct c. reflexivity. Qed.

Lemma setters_commute (v w : Z) (c : clock) :
  set_dcoctl v (set_bcsctl1 w c) = set_bcsctl1 w (set_dcoctl v c) /\
  set_dcoctl v (set_bcsctl2 w c) = set_bcsctl2 w (set_dcoctl v c) /\
  set_bcsctl1 v (set_bcsctl2 w c) = set_bcsctl2 w (set_bcsctl1 v c).
Proof. destruct c. repeat split; reflexivity. Qed.

Lemma setters_overwrite (v w : Z) (c : clock) :
  set_dcoctl v (set_dcoctl w c) = set_dcoctl v c /\
  set_bcsctl1 v (set_bcsctl1 w c) = set_bcsctl1 v c /\
  set_bcsctl2 v (set_bcsctl2 w c) = set_bcsctl2 v c.
Proof. destruct c. repeat split; reflexivity. Qed.

Lemma clock_type_update (L : libc) (c : clock) :
  clock_type (update_clock_frequencies L c) = clock_type c.
Proof. now destruct c. Qed.

Lemma clock_type_set_dcoctl (v : Z) (c : clock) :
  clock_type (set_dcoctl v c) = clock_type c.
Proof. now destruct c. Qed.

Lemma clock_type_set_bcsctl1 (v : Z) (c : clock) :
  clock_type (set_bcsctl1 v c) = clock_type c.
Proof. now destruct c. Qed.

Lemma clock_type_set_bcsctl2 (v : Z) (c : clock) :
  clock_type (set_bcsctl2 v c) = clock_type c.
Proof. now destruct c. Qed.

Ltac normalize_writes E :=
  repeat first
    [ rewrite after_write_dcoctl | rewrite after_write_bcsctl1
    | rewrite after_write_bcsctl2 | rewrite after_write_bcsctl3
    | rewrite after_write_elsewhere by assumption ];
  repeat (progress (rewrite ?clock_type_update, ?clock_type_set_dcoctl,
                      ?clock_type_set_bcsctl1, ?clock_type_set_bcsctl2, ?E;
                    cbv iota));
  rewrite ?update_after_set_dcoctl, ?update_after_set_bcsctl1,
    ?update_after_set_bcsctl2, ?update_twice.

(** X12: writes to two different addresses commute: the device they
    leave does not depend on their order (the cached frequencies are
    recomputed from the registers after each write). *)
Theorem clock_writes_commute (L : libc) (clk : clock) (a1 a2 v1 v2 : Z) :
  a1 <> a2 ->
  after_write L (after_write L clk a1 v1) a2 v2
  = after_write L (after_write L clk a2 v2) a1 v1.
Proof.
  intros Hne. destruct (clock_type clk) eqn:E;
  destruct (address_cases a1) as [-> | [-> | [-> | [-> | (? & ? & ? & ?)]]]];
    destruct (address_cases a2) as [-> | [-> | [-> | [-> | (? & ? & ? & ?)]]]];
    try congruence; normalize_writes E; try reflexivity;
    try (now rewrite (proj1 (setters_commute _ _ _)));
    try (now rewrite (proj1 (proj2 (setters_commute _ _ _))));
    try (now rewrite (proj2 (proj2 (setters_commute _ _ _)))).
Qed.

Lemma clock_writes_commute_witness :
  exists clk,
    Scenarios.basic_reset = Some clk /\
    after_write RefLibc.ref (after_write RefLibc.ref clk DCOCTL 0xA0)
                BCSCTL1 0x97
    = after_write RefLibc.ref (after_write RefLibc.ref clk BCSCTL1 0x97)
                  DCOCTL 0xA0.
Proof.
  eexists. split; [vm_compute; reflexivity|].
  apply clock_writes_commute. discriminate.
Defined.

(** X13: the last write to an address wins: two writes to the same
    address leave the device the second one alone would leave. *)
Theorem clock_write_overwrites (L : libc) (clk : clock) (addr v1 v2 : Z) :
  after_write L (after_write L clk addr v1) addr v2
  = after_write L clk addr v2.
Proof.
  destruct (clock_type clk) eqn:E;
  destruct (address_cases addr)
    as [-> | [-> | [-> | [-> | (? & ? & ? & ?)]]]];
    normalize_writes E; try reflexivity;
    try (now rewrite (proj1 (setters_overwrite _ _ _)));
    try (now rewrite (proj1 (proj2 (setters_overwrite _ _ _))));
    try (now rewrite (proj2 (proj2 (setters_overwrite _ _ _)))).
Qed.

(** ** Family-specific keys *)

(** X14: a key of the other family ("vlo" and "dco7_3" on Basic,
    "dco4_3" on Basic+), in any letter case, is refused as an unknown
    parameter: status -1, the key echoed in the message, the device
    exactly as it was and the value text not consumed. *)
Theorem clock_config_wrong_family (L : libc) (errno : Z) (clk : clock)
  (param arg_text : string) :
  (clock_type clk = CLOCK_TYPE_BASIC /\
   (lower param = "vlo"%string \/ lower param = "dco7_3"%string)) \/
  (clock_type clk = CLOCK_TYPE_BASIC_PLUS /\ lower param = "dco4_3"%string) ->
  clock_config L errno clk param arg_text
  = (-1, clk,
     [Err (TAG ++ "config: unknown parameter: %s" ++ nl) [AStr param]],
     arg_text).
Proof.
  intros [[Hty [E | E]] | [Hty E]];
    unfold clock_config, strcaseeq; rewrite E, Hty; reflexivity.
Qed.

Lemma clock_config_wrong_family_witness :
  exists clk,
    Scenarios.basic_reset = Some clk /\
    clock_config RefLibc.ref 0 clk "VLO" "12kHz"
    = (-1, clk,
       [Err (TAG ++ "config: unknown parameter: %s" ++ nl) [AStr "VLO"]],
       "12kHz"%string).
Proof.
  eexists. split; [vm_compute; reflexivity|].
  apply clock_config_wrong_family. left. split; [reflexivity|].
  left. reflexivity.
Defined.

(** ** Crystal diagnostics *)

(** X15: on a Basic+ device with no XT2 crystal configured ([xt2_hz] 0,
    the state after [create]), every write to BCSCTL3, whatever the byte,
    is handled and prints at least one diagnostic: the range check is made
    on the unconfigured frequency 0 as on any other. *)
Theorem bcsctl3_write_warns_without_xt2 (L : libc) (clk : clock) (data : Z) :
  clock_type clk = CLOCK_TYPE_BASIC_PLUS -> xt2_hz clk = 0 ->
  exists (clk' : clock) (m : message) (more : list message),
    clock_write_b L clk BCSCTL3 data = (0, clk', m :: more).
Proof.
  intros Hty Hx. unfold clock_write_b.
  change (BCSCTL3 =? BCSCTL3) with true. cbv iota. rewrite Hty.
  unfold bcsctl3_write. rewrite Hx. change (u32 0) with 0.
  assert (C : forall low high, 0 < low ->
                exists m, check_crystal 0 low high "XT2" = [m]).
  { intros low high Hl. unfold check_crystal.
    apply Z.ltb_lt in Hl. rewrite Hl. simpl orb. eauto. }
  destruct (C 400000 1000000 eq_refl) as [m0 ->].
  destruct (C 1000000 4000000 eq_refl) as [m1 ->].
  destruct (C 2000000 16000000 eq_refl) as [m2 ->].
  repeat match goal with
         | |- context [if ?b then _ else _] => destruct b
         end; cbn [app]; eauto.
Qed.

Lemma bcsctl3_write_warns_without_xt2_witness :
  exists clk,
    Scenarios.basic_plus_reset = Some clk /\
    exists clk' m more,
      clock_write_b RefLibc.ref clk BCSCTL3 0x03 = (0, clk', m :: more).
Proof.
  eexists. split; [vm_compute; reflexivity|].
  apply bcsctl3_write_warns_without_xt2; reflexivity.
Defined.

(** ** Source selection *)

Lemma byte_cases (P : Z -> bool) :
  forallb P (map Z.of_nat (seq 0 256)) = true ->
  forall v : Z, 0 <= v < 256 -> P v = true.
Proof.
  intros H v Hv. rewrite forallb_forall in H. apply H.
  apply in_map_iff. exists (Z.to_nat v). split; [lia|].
  apply in_seq. lia.
Qed.

Lemma selm_high_cases (v : Z) :
  0x80 <= v < 0x100 ->
  Z.land v (Z.lor SELM1 SELM0) = SELM_2 \/ Z.land v (Z.lor SELM1 SELM0) = SELM_3.
Proof.
  intros Hv.
  pose proof (byte_cases
                (fun v => (v <? 0x80)
                          || (Z.land v (Z.lor SELM1 SELM0) =? SELM_2)
                          || (Z.land v (Z.lor SELM1 SELM0) =? SELM_3))
                eq_refl v ltac:(lia)) as H.
  cbv beta in H.
  destruct (Z.ltb_spec v 0x80); [lia|].
  simpl orb in H. apply orb_prop in H.
  destruct H as [H | H]; apply Z.eqb_eq in H; auto.
Qed.

(** X16: with no XT2 crystal configured, selecting XT2 (SELM_2) or
    LFXT1 (SELM_3) for the main clock after a reset gives the same main
    frequency: the configured LFXT1 frequency divided by the main divider
    (1, 2, 4 or 8).  [v] is any BCSCTL2 byte with its top bit set. *)
Theorem mclk_falls_back_to_lfxt1 (L : libc) (clk : clock) (v : Z) :
  xt2_hz clk <= 0 -> 0x80 <= v < 0x100 ->
  mclk_hz (after_write L (clock_reset L clk) BCSCTL2 v)
  = lfxt1_hz clk / 2 ^ Z.shiftr (Z.land v (Z.lor DIVM1 DIVM0)) 4.
Proof.
  intros Hx Hv.
  rewrite <- Z.shiftr_div_pow2
    by (apply Z.shiftr_nonneg, Z.land_nonneg; right; discriminate).
  unfold after_write, clock_write_b. simpl fst. simpl snd.
  change (BCSCTL2 =? BCSCTL3) with false.
  change (BCSCTL2 =? DCOCTL) with false.
  change (BCSCTL2 =? BCSCTL1) with false.
  change (BCSCTL2 =? BCSCTL2) with true. cbv iota. simpl snd.
  rewrite (u8_small v) by lia.
  destruct clk as [ty lf xt vl d4 d7 sr sd dh mh sh ah ac sc r0 r1 r2 r3].
  simpl in Hx.
  assert (Hxt : (0 <? xt) = false) by (apply Z.ltb_ge; lia).
  destruct (selm_high_cases v Hv) as [E | E]; destruct ty;
    cbn [update_clock_frequencies set_derived mclk_hz bcsctl1 bcsctl2 bcsctl3
         xt2_hz lfxt1_hz vlo_hz clock_type clock_reset set_counters
         set_dcoctl set_bcsctl1 set_bcsctl2 set_bcsctl3];
    rewrite E, ?Hxt;
    change (SELM_2 =? SELM_2) with true;
    change (SELM_3 =? SELM_2) with false;
    change (SELM_3 =? SELM_3) with true;
    change (Z.land 3 (Z.lor LFXT1S1 LFXT1S0) =? LFXT1S_2) with false;
    cbv iota; rewrite ?Hxt; reflexivity.
Qed.

Lemma mclk_falls_back_to_lfxt1_witness :
  exists clk,
    Scenarios.and_then (Scenarios.created "basic+")
                       (Scenarios.configured "lfxt1" "32768Hz")
    = Some clk /\
    mclk_hz (after_write RefLibc.ref (clock_reset RefLibc.ref clk)
                         BCSCTL2 0x90) = 16384.
Proof.
  eexists. split; [vm_compute; reflexivity|].
  rewrite mclk_falls_back_to_lfxt1; [reflexivity | | ].
  - vm_compute. discriminate.
  - vm_compute. split; [discriminate | reflexivity].
Defined.

(** ** Calibration constants *)

Lemma calc_dcoclk_config (L : libc) (c c' : clock) (a b : Z) :
  config_of c = config_of c' -> calc_dcoclk L c a b = calc_dcoclk L c' a b.
Proof.
  destruct c, c'. unfold config_of. cbn [clock_type lfxt1_hz xt2_hz vlo_hz
    dco4_3_hz dco7_3_hz srsel sdco].
  intros H. inversion H. subst. reflexivity.
Qed.

Lemma cal_body_config (L : libc) (c c' : clock) (t : Z) (s : cal_state) :
  config_of c = config_of c' -> cal_body L c t s = cal_body L c' t s.
Proof.
  intros H. unfold cal_body, cal_delta.
  now rewrite (calc_dcoclk_config L c c' _ _ H).
Qed.

Lemma cal_loop_config (L : libc) (c c' : clock) (t : Z) :
  config_of c = config_of c' ->
  forall (fuel : nat) (s : cal_state) (seen : list Z),
    cal_loop L fuel c t s seen = cal_loop L fuel c' t s seen.
Proof.
  intros H. induction fuel as [|fuel IH]; intros s seen; [reflexivity|].
  cbn [cal_loop]. now rewrite IH, (cal_body_config L c c' t s H).
Qed.

Lemma config_of_type (c c' : clock) :
  config_of c = config_of c' -> clock_type c = clock_type c'.
Proof. unfold config_of. intros H. now inversion H. Qed.

(** X17: the calibration constants depend on the configuration alone:
    two devices with the same family, oscillator frequencies and ratios
    answer a read of any calibration address with the same status and
    byte, whatever their registers, cached frequencies and accumulators
    (so writes, steps and resets do not change them). *)
Theorem calibration_depends_on_config_only (L : libc) (c c' : clock)
  (addr data : Z) :
  config_of c = config_of c' ->
  CALDCO_16MHZ <= addr <= CALBC1_1MHZ ->
  exists ret v,
    clock_read_b L c addr data = Some (ret, c, v) /\
    clock_read_b L c' addr data = Some (ret, c', v).
Proof.
  intros H Ha.
  assert (C : forall t, calc_calibrate_dco L c addr t
                        = calc_calibrate_dco L c' addr t).
  { intros t. unfold calc_calibrate_dco, cal_search, cal_init.
    rewrite (config_of_type c c' H).
    now rewrite (cal_loop_config L c c' t H). }
  assert (T : forall t, exists v, calc_calibrate_dco L c' addr t = Some v).
  { intros t. unfold calc_calibrate_dco.
    destruct (cal_search_runs L c' t) as (s & seen & -> & _). eauto. }
  unfold clock_read_b. rewrite !C, (config_of_type c c' H).
  unfold_addresses.
  repeat match goal with
         | |- context [Z.eqb ?a ?b] => destruct (Z.eqb_spec a b)
         end; try (exfalso; lia); cbn [orb];
    destruct (clock_type c'); eauto;
    match goal with
    | |- context [calc_calibrate_dco L c' ?a ?t] =>
        destruct (T t) as [v ->]; eauto
    end.
Qed.

Lemma calibration_depends_on_config_only_witness :
  exists clk,
    Scenarios.basic_plus_reset = Some clk /\
    exists ret v,
      clock_read_b RefLibc.ref clk CALDCO_1MHZ 0 = Some (ret, clk, v) /\
      clock_read_b RefLibc.ref (after_write RefLibc.ref clk DCOCTL 0xFF)
                   CALDCO_1MHZ 0
      = Some (ret, after_write RefLibc.ref clk DCOCTL 0xFF, v).
Proof.
  eexists. split; [vm_compute; reflexivity|].
  apply calibration_depends_on_config_only.
  - vm_compute. reflexivity.
  - vm_compute. split; discriminate.
Defined.

Lemma cal_loop_keeps (L : libc) (c : clock) (t : Z) (P : cal_state -> Prop) :
  (forall s, P s -> P (cal_body L c t s)) ->
  forall (fuel : nat) (s s' : cal_state) (seen seen' : list Z),
    P s -> cal_loop L fuel c t s seen = Some (s', seen') -> P s'.
Proof.
  intros Hstep. induction fuel as [|fuel IH]; intros s s' seen seen' Hs;
    cbn [cal_loop]; destruct (bit s =? 0); intros H;
    try (inversion H; subst; assumption); try discriminate H.
  eapply IH; [|exact H]. now apply Hstep.
Qed.

Lemma shiftr_u16 (x n : Z) : 0 <= n -> Z.shiftr x n = 0 -> Z.shiftr (u16 x) n = 0.
Proof.
  intros Hn H. unfold u16, wrap_u. rewrite <- Z.land_ones by lia.
  now rewrite Z.shiftr_land, H, Z.land_0_l.
Qed.

Lemma below_pow2 (x n : Z) :
  0 <= n -> 0 <= x -> Z.shiftr x n = 0 -> x < 2 ^ n.
Proof.
  intros Hn Hx H. rewrite Z.shiftr_div_pow2 in H by lia.
  apply Z.div_small_iff in H; lia.
Qed.

Lemma cal_body_below (L : libc) (c : clock) (t n : Z) (s : cal_state) :
  0 <= n ->
  Z.shiftr (cal s) n = 0 /\ Z.shiftr (bit s) n = 0 /\
  Z.shiftr (best_cal s) n = 0 ->
  Z.shiftr (cal (cal_body L c t s)) n = 0 /\
  Z.shiftr (bit (cal_body L c t s)) n = 0 /\
  Z.shiftr (best_cal (cal_body L c t s)) n = 0.
Proof.
  intros Hn (Hc & Hb & Hbest). unfold cal_body.
  assert (Hb' : Z.shiftr (u16 (Z.shiftr (bit s) 1)) n = 0).
  { apply shiftr_u16; [lia|].
    rewrite Z.shiftr_shiftr by lia. rewrite Z.add_comm.
    rewrite <- Z.shiftr_shiftr by lia. now rewrite Hb. }
  destruct (_ <? min_delta s); destruct (0 <? _);
    cbn [cal bit best_cal]; repeat split; auto;
    apply shiftr_u16; try lia;
    rewrite Z.shiftr_lor, Hb', Z.lor_0_r; auto;
    apply shiftr_u16; try lia;
    now rewrite Z.shiftr_land, Hc, Z.land_0_l.
Qed.

(** X18: the calibration byte served at an odd address (the range
    byte, CALBC1) is below 8 on Basic and below 16 on Basic+: the search
    word never has a bit above the range field, so the byte carries a
    range and no other BCSCTL1 bit. *)
Theorem calibration_range_byte_bound (L : libc) (clk : clock)
  (addr target_dco : Z) :
  addr mod 2 = 1 ->
  exists v,
    calc_calibrate_dco L clk addr target_dco = Some v /\
    0 <= v < match clock_type clk with
             | CLOCK_TYPE_BASIC => 8
             | CLOCK_TYPE_BASIC_PLUS => 16
             end.
Proof.
  intros Hodd. unfold calc_calibrate_dco.
  destruct (cal_search_runs L clk target_dco) as (s & seen & Hrun & _).
  rewrite Hrun. rewrite Hodd. change (1 =? 0) with false. cbv iota.
  eexists. split; [reflexivity|].
  set (n := match clock_type clk with
            | CLOCK_TYPE_BASIC => 11
            | CLOCK_TYPE_BASIC_PLUS => 12
            end).
  assert (Hn : 8 <= n) by (subst n; destruct (clock_type clk); lia).
  assert (Hbest : Z.shiftr (best_cal s) n = 0).
  { unfold cal_search in Hrun.
    apply (cal_loop_keeps L clk target_dco
             (fun s => Z.shiftr (cal s) n = 0 /\ Z.shiftr (bit s) n = 0 /\
                       Z.shiftr (best_cal s) n = 0)) in Hrun.
    - apply Hrun.
    - intros s0. apply cal_body_below. lia.
    - unfold cal_init. subst n. destruct (clock_type clk);
        repeat split; reflexivity. }
  assert (Hv : Z.shiftr (u8 (Z.shiftr (best_cal s) 8)) (n - 8) = 0).
  { unfold u8, wrap_u. rewrite <- Z.land_ones by lia.
    rewrite Z.shiftr_land, Z.shiftr_shiftr by lia.
    replace (8 + (n - 8)) with n by lia. now rewrite Hbest, Z.land_0_l. }
  assert (Hpos : 0 <= u8 (Z.shiftr (best_cal s) 8)).
  { unfold u8, wrap_u. apply Z.mod_pos_bound. reflexivity. }
  pose proof (below_pow2 _ (n - 8) ltac:(lia) Hpos Hv) as Hlt.
  subst n. destruct (clock_type clk); simpl in Hlt; lia.
Qed.

Lemma calibration_range_byte_bound_witness :
  exists clk,
    Scenarios.basic_plus_reset = Some clk /\
    exists v,
      calc_calibrate_dco RefLibc.ref clk CALBC1_1MHZ 1000000 = Some v /\
      0 <= v < 16.
Proof.
  eexists. split; [vm_compute; reflexivity|].
  match goal with
  | |- exists v, calc_calibrate_dco _ ?c _ _ = _ /\ _ =>
      exact (calibration_range_byte_bound RefLibc.ref c CALBC1_1MHZ 1000000
               eq_refl)
  end.
Defined.

(** ** Stepping *)

(** X19: a device whose LFXT1 frequency is 0 (the state after
    [create]) has auxiliary frequency 0 after [reset], on both families,
    and every [step] on it then divides by zero: it does not return. *)
Theorem clock_step_traps_without_crystal (L : libc) (clk : clock)
  (status : Z) (clocks : clocks_t) :
  lfxt1_hz clk = 0 ->
  aclk_hz (clock_reset L clk) = 0 /\
  clock_step (clock_reset L clk) status clocks = None.
Proof.
  intros Hlf.
  assert (Ha : aclk_hz (clock_reset L clk) = 0).
  { destruct clk as [ty lf xt vl d4 d7 sr sd dh mh sh ah ac sc r0 r1 r2 r3].
    simpl in Hlf. subst lf.
    destruct ty;
      cbn [update_clock_frequencies set_derived aclk_hz bcsctl1 bcsctl2
           bcsctl3 xt2_hz lfxt1_hz vlo_hz clock_type clock_reset
           set_counters set_dcoctl set_bcsctl1 set_bcsctl2 set_bcsctl3];
      try change (Z.land 3 (Z.lor LFXT1S1 LFXT1S0) =? LFXT1S_2) with false;
      cbv iota; apply Z.shiftr_0_l. }
  split; [exact Ha|].
  unfold clock_step, div32. rewrite Ha. reflexivity.
Qed.

Lemma clock_step_traps_without_crystal_witness :
  exists clk,
    Scenarios.created "basic" = Some clk /\
    aclk_hz (clock_reset RefLibc.ref clk) = 0 /\
    clock_step (clock_reset RefLibc.ref clk) 0 (MkClocks 1 0 0) = None.
Proof.
  eexists. split; [vm_compute; reflexivity|].
  apply clock_step_traps_without_crystal. reflexivity.
Defined.

Lemma div_mod_split (r d1 d2 h : Z) :
  0 < h ->
  (r + d1) / h + ((r + d1) mod h + d2) / h = (r + (d1 + d2)) / h /\
  ((r + d1) mod h + d2) mod h = (r + (d1 + d2)) mod h.
Proof.
  intros Hh.
  pose proof (Z.div_mod (r + d1) h ltac:(lia)) as E.
  replace (r + (d1 + d2)) with (((r + d1) mod h + d2) + (r + d1) / h * h)
    by lia.
  rewrite Z.div_add, Z.mod_add by lia. lia.
Qed.

(** X20: stepping is additive.  With positive domain frequencies,
    non-negative accumulators and tick products, and the sums within
    [INT32_MAX], a step of [e1] main ticks followed by a step of [e2]
    leaves the same device as one step of [e1 + e2], and the ticks
    reported for each domain add up to those of the single step: no tick
    is lost or gained by batching. *)
Theorem clock_step_additive (clk : clock) (status : Z) (e1 e2 s a : Z) :
  0 < aclk_hz clk -> 0 < smclk_hz clk ->
  0 <= aclk_counter clk -> 0 <= smclk_counter clk ->
  0 <= e1 * mclk_hz clk -> 0 <= e2 * mclk_hz clk ->
  aclk_counter clk + (e1 + e2) * mclk_hz clk <= INT32_MAX ->
  smclk_counter clk + (e1 + e2) * mclk_hz clk <= INT32_MAX ->
  exists clk1 out1 clk2 out2 out12,
    clock_step clk status (MkClocks e1 s a) = Some (clk1, out1) /\
    clock_step clk1 status (MkClocks e2 s a) = Some (clk2, out2) /\
    clock_step clk status (MkClocks (e1 + e2) s a) = Some (clk2, out12) /\
    SIMIO_ACLK out1 + SIMIO_ACLK out2 = SIMIO_ACLK out12 /\
    SIMIO_SMCLK out1 + SIMIO_SMCLK out2 = SIMIO_SMCLK out12.
Proof.
  intros Ha Hs Hra Hrs H1 H2 Hma Hms.
  destruct clk as [ty lf xt vl d4 d7 sr sd dh mh sh ah ac sc r0 r1 r2 r3].
  cbn [aclk_hz smclk_hz aclk_counter smclk_counter mclk_hz] in *.
  pose proof (Z.mod_pos_bound (ac + e1 * mh) ah Ha) as Ba.
  pose proof (Z.mod_pos_bound (sc + e1 * mh) sh Hs) as Bs.
  pose proof (Z.mod_le (ac + e1 * mh) ah ltac:(lia) Ha) as La.
  pose proof (Z.mod_le (sc + e1 * mh) sh ltac:(lia) Hs) as Ls.
  do 5 eexists.
  split; [apply step_in_range; cbn; lia|].
  split; [apply step_in_range; cbn; lia|].
  split.
  - rewrite step_in_range by (cbn; lia). cbn.
    destruct (div_mod_split ac (e1 * mh) (e2 * mh) ah Ha) as [_ Ea].
    destruct (div_mod_split sc (e1 * mh) (e2 * mh) sh Hs) as [_ Es].
    rewrite Ea, Es. do 4 f_equal; lia.
  - cbn.
    destruct (div_mod_split ac (e1 * mh) (e2 * mh) ah Ha) as [Ea _].
    destruct (div_mod_split sc (e1 * mh) (e2 * mh) sh Hs) as [Es _].
    rewrite Ea, Es. split; f_equal; lia.
Qed.

Lemma clock_step_additive_witness :
  exists clk,
    Scenarios.and_then
      (Scenarios.and_then (Scenarios.created "basic+")
                          (Scenarios.configured "lfxt1" "32768Hz"))
      Scenarios.reset = Some clk /\
    exists clk1 out1 clk2 out2 out12,
      clock_step clk 0 (MkClocks 2 0 0) = Some (clk1, out1) /\
      clock_step clk1 0 (MkClocks 3 0 0) = Some (clk2, out2) /\
      clock_step clk 0 (MkClocks (2 + 3) 0 0) = Some (clk2, out12) /\
      SIMIO_ACLK out1 + SIMIO_ACLK out2 = SIMIO_ACLK out12 /\
      SIMIO_SMCLK out1 + SIMIO_SMCLK out2 = SIMIO_SMCLK out12.
Proof.
  eexists. split; [vm_compute; reflexivity|].
  apply clock_step_additive; vm_compute; first [reflexivity | discriminate].
Defined.

(** ** Frequency tokens and their rendering *)

(** X21: [multiply_power_of_10] on an unsigned 32-bit value: for a
    power that is not negative, the product by that power of ten reduced
    modulo 2^32 (it wraps, silently); for a negative power, the quotient
    by the power of ten, truncated. *)
Theorem multiply_power_of_10_value (val pow : Z) :
  0 <= val < 2 ^ 32 ->
  multiply_power_of_10 val pow
  = if 0 <=? pow then (val * 10 ^ pow) mod 2 ^ 32 else val / 10 ^ (- pow).
Proof.
  intros Hv. unfold multiply_power_of_10.
  assert (Up : forall n : nat,
             Nat.iter n (fun v => u32 (v * 10)) val
             = (val * 10 ^ Z.of_nat n) mod 2 ^ 32).
  { induction n as [|n IH].
    - simpl. rewrite Z.mul_1_r. symmetry. now apply Z.mod_small.
    - rewrite Nat2Z.inj_succ, Z.pow_succ_r by lia.
      rewrite Nat.iter_succ, IH. unfold u32, wrap_u.
      rewrite Zmult_mod_idemp_l. f_equal. lia. }
  assert (Down : forall n : nat,
             Nat.iter n (fun v => v / 10) val = val / 10 ^ Z.of_nat n).
  { induction n as [|n IH].
    - simpl. now rewrite Z.div_1_r.
    - rewrite Nat2Z.inj_succ, Z.pow_succ_r by lia.
      rewrite Nat.iter_succ, IH.
      rewrite Z.div_div by lia. f_equal. lia. }
  destruct (Z.ltb_spec 0 pow) as [Hp | Hp].
  - rewrite Up, Z2Nat.id by lia.
    destruct (Z.leb_spec 0 pow); [reflexivity | lia].
  - rewrite Down, Z2Nat.id by lia.
    destruct (Z.leb_spec 0 pow) as [H0 | H0]; [|reflexivity].
    assert (pow = 0) by lia. subst pow. simpl.
    rewrite Z.div_1_r, Z.mul_1_r. symmetry. now apply Z.mod_small.
Qed.

Lemma multiply_power_of_10_value_witness :
  multiply_power_of_10 32768 3 = 32768000 /\
  multiply_power_of_10 12345 (-2) = 123.
Proof.
  split.
  - rewrite multiply_power_of_10_value by (vm_compute; split; congruence).
    reflexivity.
  - rewrite multiply_power_of_10_value by (vm_compute; split; congruence).
    reflexivity.
Defined.

Lemma string_of_list_length (l : list ascii) :
  String.length (string_of_list_ascii l) = List.length l.
Proof. induction l as [|c l IH]; simpl; [reflexivity | now rewrite IH]. Qed.

(** The digit loop writes one character per digit and at most one
    separator before every third digit. *)
Lemma emit_digits_bound (fuel : nat) :
  forall (hz digit len : Z) (buf : list ascii),
    1 <= digit ->
    Z.of_nat (List.length buf) <= digit + (digit - 1) / 3 ->
    let r := emit_digits fuel hz digit len buf in
    fst r <= digit + Z.of_nat fuel + 1 /\
    Z.of_nat (List.length (snd r)) <= fst r + (fst r - 1) / 3.
Proof.
  assert (Body : forall (hz digit : Z) (buf : list ascii),
             1 <= digit ->
             Z.of_nat (List.length buf) <= digit + (digit - 1) / 3 ->
             Z.of_nat
               (List.length
                  ((if negb (digit =? 0) && (digit mod 3 =? 0) && (hz <? 1000)
                    then buf ++ [chr 46] else buf)
                   ++ [chr (hz mod 10 + 48)]))
             <= digit + 1 + (digit + 1 - 1) / 3).
  { intros hz digit buf Hd Hl.
    destruct (negb (digit =? 0) && (digit mod 3 =? 0) && (hz <? 1000)) eqn:E;
      rewrite ?length_app; cbn [List.length].
    - apply andb_prop in E. destruct E as [E _].
      apply andb_prop in E. destruct E as [_ E]. apply Z.eqb_eq in E.
      Z.div_mod_to_equations. lia.
    - Z.div_mod_to_equations. lia. }
  induction fuel as [|fuel IH]; intros hz digit len buf Hd Hl;
    cbn [emit_digits]; cbv zeta.
  - cbn [fst snd]. split; [lia | now apply Body].
  - pose proof (Body hz digit buf Hd Hl) as H2.
    destruct ((0 <? hz / 10) && _).
    + specialize (IH (hz / 10) (digit + 1) len _ ltac:(lia) H2).
      cbv zeta in IH. destruct IH as [I1 I2]. split; [lia | exact I2].
    + cbn [fst snd]. split; [lia | exact H2].
Qed.

Lemma emit_digits_first (f : nat) (hz len : Z) :
  emit_digits (S f) hz 0 len []
  = if (0 <? hz / 10) && (1 <? len)
    then emit_digits f (hz / 10) 1 len [chr (hz mod 10 + 48)]
    else (1, [chr (hz mod 10 + 48)]).
Proof. reflexivity. Qed.

Lemma emit_digits_initial (hz len : Z) :
  Z.of_nat (List.length (snd (emit_digits 10 hz 0 len []))) <= 14.
Proof.
  rewrite emit_digits_first.
  destruct ((0 <? hz / 10) && _); [|simpl; lia].
  pose proof (emit_digits_bound 9 (hz / 10) 1 len [chr (hz mod 10 + 48)]
                ltac:(lia) ltac:(simpl; lia)) as B.
  cbv zeta in B.
  destruct (emit_digits 9 (hz / 10) 1 len [chr (hz mod 10 + 48)]) as [n buf].
  cbn [fst snd] in *. destruct B as [B1 B2].
  assert (n <= 11) by lia.
  assert ((n - 1) / 3 < 4) by (apply Z.div_lt_upper_bound; lia).
  lia.
Qed.

(** X22: for every value, the text [to_frequency] builds and its
    terminating NUL fit the 20-byte buffer every caller passes. *)
Theorem to_frequency_fits_buffer (hz : Z) :
  Z.of_nat (String.length (to_frequency hz sizeof_buf)) + 1 <= sizeof_buf.
Proof.
  unfold to_frequency.
  pose proof (emit_digits_initial (u32 hz) (sizeof_buf - 4)) as Hb.
  destruct (emit_digits 10 (u32 hz) 0 (sizeof_buf - 4) []) as [d buf].
  cbn [snd] in Hb.
  rewrite !append_length, string_of_list_length.
  unfold reverse.
  rewrite length_firstn, length_rev.
  assert (U : Z.of_nat
                (String.length
                   (if 6 <? d then "M"%string
                    else if 3 <? d then "k"%string else EmptyString))
              <= 1).
  { destruct (6 <? d); [simpl; lia|]. destruct (3 <? d); simpl; lia. }
  change (String.length "Hz") with 2%nat.
  unfold sizeof_buf. lia.
Qed.

(** ** Register access, continued *)

(** X23: the three registers both families store (DCOCTL, BCSCTL1,
    BCSCTL2): a write of a byte is handled, prints nothing, and a read of
    the same address then returns that byte. *)
Theorem register_write_read_back (L : libc) (clk : clock) (addr v d : Z) :
  0 <= v < 256 ->
  addr = DCOCTL \/ addr = BCSCTL1 \/ addr = BCSCTL2 ->
  exists clk',
    clock_write_b L clk addr v = (0, clk', []) /\
    clock_read_b L clk' addr d = Some (0, clk', v).
Proof. exact (stored_register_round_trip L clk addr v d). Qed.

Lemma register_write_read_back_witness :
  exists clk,
    Scenarios.basic_reset = Some clk /\
    exists clk',
      clock_write_b RefLibc.ref clk BCSCTL1 0xB7 = (0, clk', []) /\
      clock_read_b RefLibc.ref clk' BCSCTL1 0 = Some (0, clk', 0xB7).
Proof.
  eexists. split; [vm_compute; reflexivity|].
  apply register_write_read_back.
  - vm_compute. split; [discriminate | reflexivity].
  - right. left. reflexivity.
Defined.

(** X24: the calibration constants are read-only: a write to any of the
    eight calibration addresses answers 1 (not this device's), prints
    nothing and leaves the device as it was, on both families. *)
Theorem calibration_write_not_mine (L : libc) (clk : clock) (addr data : Z) :
  CALDCO_16MHZ <= addr <= CALBC1_1MHZ ->
  clock_write_b L clk addr data = (1, clk, []).
Proof. exact (calibration_constants_not_written L clk addr data). Qed.

Lemma calibration_write_not_mine_witness :
  exists clk,
    Scenarios.basic_plus_reset = Some clk /\
    clock_write_b RefLibc.ref clk CALDCO_1MHZ 0x55 = (1, clk, []).
Proof.
  eexists. split; [vm_compute; reflexivity|].
  apply calibration_write_not_mine.
  vm_compute. split; discriminate.
Defined.

(** X25: [config_ratio] tests [errno] for [ERANGE] without clearing it
    before it calls [strtod]: when an earlier library call has left
    [ERANGE] there, every ratio is refused (status -1), whatever the
    token and whatever [strtod] makes of it. *)
Theorem config_ratio_refuses_on_stale_errno (L : libc) (clk : clock)
  (data : ratio_member) (arg_text : string) :
  fst (fst (fst (config_ratio L ERANGE clk data arg_text))) = -1 /\
  snd (fst (fst (config_ratio L ERANGE clk data arg_text))) = clk.
Proof.
  split; [exact (config_ratio_stale_errno L clk data arg_text)|].
  destruct (config_ratio L ERANGE clk data arg_text)
    as [[[ret clk'] out] rest] eqn:E.
  pose proof (config_ratio_stale_errno L clk data arg_text) as H.
  rewrite E in H. simpl in H. simpl.
  eapply config_ratio_atomic; [exact E | lia].
Qed.

(* ================================================================== *)
(** ** Frequencies as text: [to_frequency] and [config_frequency] *)

Lemma below_1000_cases (P : Z -> bool) :
  all_below_1000 P = true -> forall x : Z, 0 <= x < 1000 -> P x = true.
Proof.
  intros H x Hx. unfold all_below_1000 in H. rewrite forallb_forall in H.
  apply H. apply in_map_iff. exists (Z.to_nat x). split; [lia|].
  apply in_seq. lia.
Qed.

Lemma config_frequency_value (L : libc) (clk : clock) (hz : hz_member)
  (arg_text : string) :
  config_frequency L clk hz arg_text
  = match get_arg arg_text with
    | (None, rest) =>
        (-1, clk, [Err (TAG ++ "config: expected frequency" ++ nl) []], rest)
    | (Some tok, rest) =>
        match frequency_value tok with
        | None =>
            (-1, clk,
             [Err (TAG ++ "config: illegal frequency: %s" ++ nl) [AStr tok]],
             rest)
        | Some f => (0, update_clock_frequencies L (set_hz hz f clk), [], rest)
        end
    end.
Proof.
  unfold config_frequency, frequency_value.
  destruct (get_arg arg_text) as [[tok|] rest]; [|reflexivity].
  destruct (scan_frequency tok 0 (-1)) as [[freq frac] p].
  repeat match goal with
         | |- context [if ?b then _ else _] => destruct b
         end; reflexivity.
Qed.

Lemma isdigit_value (c : ascii) :
  isdigit c = true -> 0 <= code c - 48 <= 9 /\ is_char 46 c = false.
Proof.
  unfold isdigit, is_char. intros H. apply andb_prop in H.
  destruct H as [H1 H2]. apply Z.leb_le in H1. apply Z.leb_le in H2.
  split; [lia|]. apply Z.eqb_neq. lia.
Qed.

Lemma decimal_ge (l : list ascii) :
  forall acc, forallb isdigit l = true -> 0 <= acc -> acc <= decimal acc l.
Proof.
  induction l as [|c r IH]; intros acc Hd Ha; [simpl; lia|].
  simpl in Hd. apply andb_prop in Hd. destruct Hd as [Hc Hr].
  destruct (isdigit_value c Hc) as [Hv _].
  simpl. specialize (IH (acc * 10 + (code c - 48)) Hr ltac:(lia)). lia.
Qed.

Lemma decimal_shift (l : list ascii) :
  forall acc,
    decimal acc l = acc * 10 ^ Z.of_nat (List.length l) + decimal 0 l.
Proof.
  induction l as [|c r IH]; intros acc; [simpl; lia|].
  cbn [decimal List.length]. rewrite IH, (IH (0 * 10 + (code c - 48))).
  rewrite Nat2Z.inj_succ, Z.pow_succ_r by lia. lia.
Qed.

(** The loop of [config_frequency] over a run of digits. *)
Lemma scan_digits (l : list ascii) :
  forall (freq frac : Z) (p : string),
    forallb isdigit l = true -> 0 <= freq ->
    decimal freq l <= INT32_MAX ->
    scan_frequency (string_of_list_ascii l ++ p) freq frac
    = scan_frequency p (decimal freq l)
        (if 0 <=? frac then frac + Z.of_nat (List.length l) else frac).
Proof.
  induction l as [|c r IH]; intros freq frac p Hd Hf Hmax.
  - simpl. destruct (0 <=? frac); f_equal; lia.
  - simpl in Hd. apply andb_prop in Hd. destruct Hd as [Hc Hr].
    destruct (isdigit_value c Hc) as [Hv _].
    cbn [string_of_list_ascii append scan_frequency decimal]. rewrite Hc.
    pose proof (decimal_ge r (freq * 10 + (code c - 48)) Hr ltac:(lia)) as G.
    cbn [decimal] in Hmax.
    rewrite (s32_small (freq * 10)) by (unfold INT32_MIN, INT32_MAX in *; lia).
    rewrite s32_small by (unfold INT32_MIN, INT32_MAX in *; lia).
    rewrite IH by (try assumption; lia).
    f_equal. cbn [List.length]. destruct (0 <=? frac) eqn:E.
    + apply Z.leb_le in E.
      destruct (Z.leb_spec 0 (frac + 1)); lia.
    + now rewrite E.
Qed.

(** *** The digit loop, three digits at a time *)

Lemma emit_digits_unfold (f : nat) (hz digit len : Z) (buf : list ascii) :
  emit_digits (S f) hz digit len buf
  = let buf2 :=
      (if negb (digit =? 0) && (digit mod 3 =? 0) && (hz <? 1000)
       then buf ++ [chr 46] else buf) ++ [digit_char hz] in
    if (0 <? hz / 10) && (Z.of_nat (List.length buf2) <? len)
    then emit_digits f (hz / 10) (digit + 1) len buf2
    else (digit + 1, buf2).
Proof. reflexivity. Qed.

Lemma emit_digits_stop (f : nat) (hz digit len : Z) (buf : list ascii) :
  hz / 10 = 0 ->
  emit_digits f hz digit len buf
  = (digit + 1,
     (if negb (digit =? 0) && (digit mod 3 =? 0) && (hz <? 1000)
      then buf ++ [chr 46] else buf) ++ [digit_char hz]).
Proof.
  intros H. destruct f as [|f]; [reflexivity|].
  rewrite emit_digits_unfold. cbv zeta. rewrite H. reflexivity.
Qed.

Lemma emit_digits_go (f : nat) (hz digit len : Z) (buf : list ascii)
  (dot : bool) :
  negb (digit =? 0) && (digit mod 3 =? 0) && (hz <? 1000) = dot ->
  0 < hz / 10 ->
  Z.of_nat (List.length buf) + 2 < len ->
  emit_digits (S f) hz digit len buf
  = emit_digits f (hz / 10) (digit + 1) len
      ((if dot then buf ++ [chr 46] else buf) ++ [digit_char hz]).
Proof.
  intros Hdot Hgo Hlen. rewrite emit_digits_unfold. cbv zeta. rewrite Hdot.
  replace (0 <? hz / 10) with true by (symmetry; apply Z.ltb_lt; lia).
  replace (Z.of_nat (List.length ((if dot then buf ++ [chr 46] else buf)
                                  ++ [digit_char hz])) <? len) with true.
  - reflexivity.
  - symmetry. apply Z.ltb_lt. destruct dot; rewrite ?length_app; simpl; lia.
Qed.

Lemma no_dot_off_group (digit hz : Z) (k : Z) :
  digit mod 3 = 0 -> 0 <= digit -> k = 1 \/ k = 2 ->
  negb (digit + k =? 0) && ((digit + k) mod 3 =? 0) && (hz <? 1000) = false.
Proof.
  intros Hm Hd Hk.
  replace ((digit + k) mod 3 =? 0) with false.
  - now rewrite andb_false_r.
  - symmetry. apply Z.eqb_neq. Z.div_mod_to_equations. lia.
Qed.

Lemma emit3 (f : nat) (hz digit len : Z) (buf : list ascii) :
  1000 <= hz -> digit mod 3 = 0 -> 0 <= digit ->
  Z.of_nat (List.length buf) + 4 < len ->
  emit_digits (S (S (S f))) hz digit len buf
  = emit_digits f (hz / 1000) (digit + 3) len (buf ++ low3 hz).
Proof.
  intros Hhz Hm Hd Hlen.
  assert (D1 : 0 < hz / 10) by (apply Z.div_str_pos; lia).
  assert (D2 : 0 < hz / 10 / 10)
    by (rewrite Z.div_div by lia; apply Z.div_str_pos; lia).
  assert (D3 : 0 < hz / 10 / 10 / 10)
    by (rewrite !Z.div_div by lia; apply Z.div_str_pos; lia).
  assert (N0 : negb (digit =? 0) && (digit mod 3 =? 0) && (hz <? 1000) = false).
  { replace (hz <? 1000) with false by (symmetry; apply Z.ltb_ge; lia).
    now rewrite andb_false_r. }
  rewrite (emit_digits_go _ hz digit len buf false N0 D1) by lia.
  rewrite (emit_digits_go _ (hz / 10) (digit + 1) len _ false
             (no_dot_off_group digit _ 1 Hm Hd (or_introl eq_refl)) D2)
    by (rewrite length_app; simpl; lia).
  replace (digit + 1 + 1) with (digit + 2) by lia.
  rewrite (emit_digits_go _ (hz / 10 / 10) (digit + 2) len _ false
             (no_dot_off_group digit _ 2 Hm Hd (or_intror eq_refl)) D3)
    by (rewrite !length_app; simpl; lia).
  unfold low3. rewrite !Z.div_div by lia.
  replace (digit + 2 + 1) with (digit + 3) by lia.
  rewrite <- !app_assoc. reflexivity.
Qed.

(** The last group: at most three digits, after the separator when the
    group is not the first. *)
Lemma emit_last (f : nat) (a digit len : Z) (buf : list ascii) :
  0 <= a < 1000 -> digit mod 3 = 0 -> 0 <= digit ->
  Z.of_nat (List.length buf) + 5 < len ->
  emit_digits (S (S f)) a digit len buf
  = (digit + Z.of_nat (List.length (low_digits a)),
     buf ++ (if digit =? 0 then [] else [chr 46]) ++ low_digits a).
Proof.
  intros Ha Hm Hd Hlen.
  assert (N0 : negb (digit =? 0) && (digit mod 3 =? 0) && (a <? 1000)
               = negb (digit =? 0)).
  { replace (a <? 1000) with true by (symmetry; apply Z.ltb_lt; lia).
    replace (digit mod 3 =? 0) with true by (symmetry; now apply Z.eqb_eq).
    now rewrite !andb_true_r. }
  assert (B : forall l : list ascii,
             (if negb (digit =? 0) then buf ++ [chr 46] else buf) ++ l
             = buf ++ (if digit =? 0 then [] else [chr 46]) ++ l).
  { intros l. destruct (digit =? 0); simpl; [reflexivity|].
    now rewrite <- app_assoc. }
  unfold low_digits.
  destruct (Z.ltb_spec a 10) as [H10 | H10].
  - rewrite emit_digits_stop by (apply Z.div_small; lia).
    rewrite N0, B. f_equal; simpl; try lia.
  - assert (D1 : 0 < a / 10) by (apply Z.div_str_pos; lia).
    rewrite (emit_digits_go _ a digit len buf _ N0 D1) by lia.
    destruct (Z.ltb_spec a 100) as [H100 | H100].
    + rewrite emit_digits_stop
        by (rewrite Z.div_div by lia; apply Z.div_small; lia).
      rewrite (no_dot_off_group digit _ 1 Hm Hd (or_introl eq_refl)).
      rewrite <- app_assoc, B. f_equal; simpl; try lia.
    + assert (D2 : 0 < a / 10 / 10)
        by (rewrite Z.div_div by lia; apply Z.div_str_pos; lia).
      rewrite (emit_digits_go _ (a / 10) (digit + 1) len _ false
                 (no_dot_off_group digit _ 1 Hm Hd (or_introl eq_refl)) D2)
        by (destruct (negb (digit =? 0)); rewrite !length_app; simpl; lia).
      rewrite emit_digits_stop
        by (rewrite !Z.div_div by lia; apply Z.div_small; lia).
      replace (digit + 1 + 1) with (digit + 2) by lia.
      rewrite (no_dot_off_group digit _ 2 Hm Hd (or_intror eq_refl)).
      unfold low3. rewrite !Z.div_div by lia.
      rewrite <- !app_assoc, B. f_equal; simpl; try lia.
Qed.

(** *** Stripping the zeroes *)

Lemma skip_zeroes_lt (l : list ascii) (e : nat) :
  (0 < e)%nat -> (skip_zeroes l e < e)%nat.
Proof.
  induction e as [|e IH]; intros H; [lia|].
  cbn [skip_zeroes]. destruct (is_char 48 (nth e l Ascii.zero)); [|lia].
  destruct e as [|e]; [simpl; lia|].
  specialize (IH ltac:(lia)). lia.
Qed.

(** The scan stops in the last part of the buffer when a character other
    than '0' is there. *)
Lemma skip_zeroes_in_suffix (pre suf : list ascii) (e : nat) :
  (0 < e)%nat ->
  is_char 48 (nth (skip_zeroes suf e) suf Ascii.zero) = false ->
  skip_zeroes (pre ++ suf) (List.length pre + e)
  = (List.length pre + skip_zeroes suf e)%nat.
Proof.
  induction e as [|e IH]; intros He Hnz; [lia|].
  rewrite Nat.add_succ_r. cbn [skip_zeroes] in *.
  rewrite app_nth2_plus.
  destruct (is_char 48 (nth e suf Ascii.zero)) eqn:E; [|reflexivity].
  destruct e as [|e].
  - simpl in Hnz. congruence.
  - apply IH; [lia | exact Hnz].
Qed.

(** It runs through a part made of '0' only. *)
Lemma skip_zeroes_through (pre suf : list ascii) (e : nat) :
  (forall i, (i < e)%nat -> is_char 48 (nth i suf Ascii.zero) = true) ->
  skip_zeroes (pre ++ suf) (List.length pre + e)
  = skip_zeroes (pre ++ suf) (List.length pre).
Proof.
  induction e as [|e IH]; intros Hz; [now rewrite Nat.add_0_r|].
  rewrite Nat.add_succ_r. cbn [skip_zeroes].
  rewrite app_nth2_plus, (Hz e) by lia.
  apply IH. intros i Hi. apply Hz. lia.
Qed.

(** What lies after the position it starts from does not matter. *)
Lemma skip_zeroes_prefix (pre suf : list ascii) (e : nat) :
  (e <= List.length pre)%nat ->
  skip_zeroes (pre ++ suf) e = skip_zeroes pre e.
Proof.
  induction e as [|e IH]; intros He; [reflexivity|].
  cbn [skip_zeroes]. rewrite app_nth1 by lia.
  destruct (is_char 48 (nth e pre Ascii.zero)); [apply IH; lia | reflexivity].
Qed.

(** *** The groups of three digits, checked one by one *)

Lemma groups_ok : all_below_1000 group_ok = true.
Proof. vm_compute. reflexivity. Qed.

Lemma group_facts (x : Z) :
  0 <= x < 1000 ->
  forallb isdigit (group x) = true /\ decimal 0 (group x) = x /\
  forallb isdigit (leading x) = true /\ decimal 0 (leading x) = x /\
  1 <= Z.of_nat (List.length (leading x)) <= 3 /\
  forallb isdigit (stripped x) = true /\
  Z.of_nat (List.length (stripped x)) <= 3 /\
  decimal 0 (stripped x) * 10 ^ (3 - Z.of_nat (List.length (stripped x))) = x.
Proof.
  intros Hx. pose proof (below_1000_cases group_ok groups_ok x Hx) as H.
  unfold group_ok in H.
  repeat match type of H with
         | (_ && _ = true) =>
             let H1 := fresh "H" in
             apply andb_prop in H; destruct H as [H H1]
         end.
  repeat match goal with
         | K : (_ =? _) = true |- _ => apply Z.eqb_eq in K
         | K : (_ <=? _) = true |- _ => apply Z.leb_le in K
         end.
  repeat split; assumption.
Qed.

Lemma group_zero_facts (x : Z) :
  0 <= x < 1000 ->
  (x = 0 -> forall i, (i < 3)%nat ->
            is_char 48 (nth i (group x) Ascii.zero) = true) /\
  (x <> 0 ->
   is_char 48 (nth (skip_zeroes (group x) 3) (group x) Ascii.zero) = false /\
   is_char 46 (nth (skip_zeroes (group x) 3) (group x) Ascii.zero) = false).
Proof.
  intros Hx. split.
  - intros -> i Hi. do 3 (destruct i as [|i]; [reflexivity|]). lia.
  - intros Hne. pose proof (below_1000_cases group_ok groups_ok x Hx) as H.
    unfold group_ok in H.
    apply andb_prop in H. destruct H as [_ H].
    destruct (Z.eqb_spec x 0); [congruence|].
    cbv zeta in H. apply andb_prop in H. destruct H as [H1 H2].
    apply negb_true_iff in H1. apply negb_true_iff in H2. auto.
Qed.

Lemma group_length (x : Z) : List.length (group x) = 3%nat.
Proof. reflexivity. Qed.

(** [suppress_suffix_zeroes] on a buffer that ends with one fraction
    group. *)
Lemma strip_one_group (I : list ascii) (c : Z) :
  0 <= c < 1000 ->
  let buf := (I ++ [chr 46]) ++ group c in
  firstn (suppress_suffix_zeroes buf (List.length buf)) buf
  = I ++ match stripped c with [] => [] | F => chr 46 :: F end.
Proof.
  intros Hc buf. subst buf. rewrite length_app, group_length.
  destruct (group_zero_facts c Hc) as [Hz Hnz].
  unfold suppress_suffix_zeroes, stripped.
  destruct (Z.eqb_spec c 0) as [E | E].
  - rewrite skip_zeroes_through by (apply Hz; assumption).
    rewrite skip_zeroes_prefix by lia.
    rewrite length_app. cbn [List.length]. rewrite Nat.add_1_r.
    cbn [skip_zeroes]. rewrite nth_middle.
    change (is_char 48 (chr 46)) with false. cbv iota.
    rewrite <- app_assoc. cbn [app]. rewrite nth_middle.
    change (is_char 46 (chr 46)) with true. cbv iota.
    rewrite firstn_app, Nat.sub_diag, firstn_all. cbn [firstn].
    reflexivity.
  - destruct (Hnz E) as [N0 Ndot].
    rewrite skip_zeroes_in_suffix by (try lia; exact N0).
    rewrite app_nth2_plus, Ndot.
    rewrite <- Nat.add_succ_r, firstn_app_2.
    rewrite <- app_assoc. cbn [app].
    destruct (firstn (S (skip_zeroes (group c) 3)) (group c)) eqn:F;
      [discriminate F | reflexivity].
Qed.

(** A group of zeroes at the end of the buffer is dropped whole. *)
Lemma strip_zero_group (pre : list ascii) (c : Z) :
  c = 0 -> (0 < List.length pre)%nat ->
  let buf := pre ++ group c in
  firstn (suppress_suffix_zeroes buf (List.length buf)) buf
  = firstn (suppress_suffix_zeroes pre (List.length pre)) pre.
Proof.
  intros -> Hpre buf. subst buf. rewrite length_app, group_length.
  unfold suppress_suffix_zeroes.
  rewrite skip_zeroes_through
    by (intros i Hi; do 3 (destruct i as [|i]; [reflexivity|]); lia).
  rewrite skip_zeroes_prefix by lia.
  pose proof (skip_zeroes_lt pre (List.length pre) Hpre) as Hlt.
  rewrite app_nth1 by lia.
  rewrite firstn_app.
  match goal with
  | |- _ ++ firstn ?k _ = _ => replace k with 0%nat
  end.
  - cbn [firstn]. now rewrite app_nil_r.
  - destruct (is_char 46 _); lia.
Qed.

Lemma strip_two_groups (I : list ascii) (b c : Z) :
  0 <= b < 1000 -> 0 <= c < 1000 ->
  let buf := ((I ++ [chr 46]) ++ group b) ++ group c in
  firstn (suppress_suffix_zeroes buf (List.length buf)) buf
  = I ++ match fraction2 b c with [] => [] | F => chr 46 :: F end.
Proof.
  intros Hb Hc buf. subst buf. unfold fraction2.
  destruct (Z.eqb_spec c 0) as [E | E].
  - rewrite strip_zero_group
      by (try assumption; rewrite !length_app; simpl; lia).
    now apply strip_one_group.
  - destruct (group_zero_facts c Hc) as [_ Hnz].
    destruct (Hnz E) as [N0 Ndot].
    rewrite length_app, group_length.
    unfold suppress_suffix_zeroes.
    rewrite skip_zeroes_in_suffix by (try lia; exact N0).
    rewrite app_nth2_plus, Ndot.
    rewrite <- Nat.add_succ_r, firstn_app_2.
    unfold stripped. destruct (Z.eqb_spec c 0); [congruence|].
    rewrite <- !app_assoc. cbn [app].
    destruct (group b ++ _) eqn:F; [|reflexivity].
    apply app_eq_nil in F. destruct F as [F _]. discriminate F.
Qed.

(** *** Reading a formatted frequency back *)

Lemma string_of_list_app (l1 l2 : list ascii) :
  string_of_list_ascii (l1 ++ l2)
  = (string_of_list_ascii l1 ++ string_of_list_ascii l2)%string.
Proof. induction l1 as [|c l IH]; simpl; [reflexivity | now rewrite IH]. Qed.

Lemma string_append_assoc (a b c : string) :
  ((a ++ b) ++ c)%string = (a ++ (b ++ c))%string.
Proof. induction a as [|x a IH]; simpl; [reflexivity | now rewrite IH]. Qed.

Lemma decimal_app (l1 l2 : list ascii) (acc : Z) :
  decimal acc (l1 ++ l2) = decimal (decimal acc l1) l2.
Proof.
  revert acc. induction l1 as [|c l IH]; intros acc; simpl;
    [reflexivity | apply IH].
Qed.

Lemma multiply_power_of_10_up (val pow : Z) :
  0 <= val < 2 ^ 32 -> 0 <= pow ->
  multiply_power_of_10 val pow = (val * 10 ^ pow) mod 2 ^ 32.
Proof.
  intros Hv Hp. unfold multiply_power_of_10.
  assert (Up : forall n : nat,
             Nat.iter n (fun v => u32 (v * 10)) val
             = (val * 10 ^ Z.of_nat n) mod 2 ^ 32).
  { induction n as [|n IH].
    - simpl. rewrite Z.mul_1_r. symmetry. now apply Z.mod_small.
    - rewrite Nat2Z.inj_succ, Z.pow_succ_r by lia.
      rewrite Nat.iter_succ, IH. unfold u32, wrap_u.
      rewrite Zmult_mod_idemp_l. f_equal. lia. }
  destruct (Z.ltb_spec 0 pow) as [H | H].
  - now rewrite Up, Z2Nat.id by lia.
  - assert (pow = 0) by lia. subst pow. simpl.
    rewrite Z.mul_1_r. symmetry. now apply Z.mod_small.
Qed.

Lemma scan_dot (s : string) (freq : Z) :
  scan_frequency (String (chr 46) s) freq (-1) = scan_frequency s freq 0.
Proof. reflexivity. Qed.

Lemma scan_unit (unit : string) (k v n : Z) :
  (unit = "Hz"%string /\ k = 0) \/ (unit = "kHz"%string /\ k = 3)
  \/ (unit = "MHz"%string /\ k = 6) ->
  scan_frequency unit v n = (v, n, unit)
  /\ (if match unit with EmptyString => true | _ => false end
         || strcaseeq unit "Hz" then Some (0 - (if n <? 0 then 0 else n))
      else if strcaseeq unit "kHz" then Some (3 - (if n <? 0 then 0 else n))
      else if strcaseeq unit "MHz" then Some (6 - (if n <? 0 then 0 else n))
      else None) = Some (k - (if n <? 0 then 0 else n)).
Proof.
  intros [[-> ->] | [[-> ->] | [-> ->]]]; split; reflexivity.
Qed.

Lemma frequency_value_formatted (I F : list ascii) (unit : string) (k : Z) :
  forallb isdigit I = true -> forallb isdigit F = true ->
  (unit = "Hz"%string /\ k = 0) \/ (unit = "kHz"%string /\ k = 3)
  \/ (unit = "MHz"%string /\ k = 6) ->
  Z.of_nat (List.length F) <= k ->
  decimal 0 (I ++ F) * 10 ^ (k - Z.of_nat (List.length F)) < 1000000000 ->
  frequency_value (formatted I F unit)
  = Some (decimal 0 (I ++ F) * 10 ^ (k - Z.of_nat (List.length F))).
Proof.
  intros HI HF Hunit Hlen Hmax.
  assert (HIF : forallb isdigit (I ++ F) = true)
    by (rewrite forallb_app, HI, HF; reflexivity).
  pose proof (decimal_ge (I ++ F) 0 HIF ltac:(lia)) as Hpos.
  assert (Hpow : 1 <= 10 ^ (k - Z.of_nat (List.length F)))
    by (pose proof (Z.pow_pos_nonneg 10 (k - Z.of_nat (List.length F)));
        lia).
  assert (Hd : decimal 0 (I ++ F) < 1000000000) by nia.
  assert (HdI : decimal 0 I <= decimal 0 (I ++ F)).
  { rewrite decimal_app. apply decimal_ge; [exact HF|].
    apply decimal_ge; [exact HI | lia]. }
  assert (Scan :
           scan_frequency (formatted I F unit) 0 (-1)
           = scan_frequency unit (decimal 0 (I ++ F))
               (match F with [] => -1 | _ => Z.of_nat (List.length F) end)).
  { unfold formatted. rewrite string_of_list_app, string_append_assoc.
    rewrite scan_digits by (try assumption; unfold INT32_MAX; lia).
    change (0 <=? -1) with false. cbv iota.
    destruct F as [|c F]; [now rewrite app_nil_r|].
    change (string_of_list_ascii (chr 46 :: c :: F) ++ unit)%string
      with (String (chr 46) (string_of_list_ascii (c :: F) ++ unit)).
    rewrite scan_dot.
    rewrite scan_digits
      by (try assumption; try (apply decimal_ge; [exact HI | lia]);
          try (rewrite <- decimal_app; unfold INT32_MAX; lia)).
    rewrite <- decimal_app. reflexivity. }
  unfold frequency_value. rewrite Scan.
  set (v := decimal 0 (I ++ F)) in *.
  set (n := match F with [] => -1 | _ => Z.of_nat (List.length F) end).
  assert (Hn : (if n <? 0 then 0 else n) = Z.of_nat (List.length F)).
  { subst n. destruct F as [|c F']; [reflexivity|].
    destruct (Z.ltb_spec (Z.of_nat (List.length (c :: F'))) 0); lia. }
  assert (Val : s32 (multiply_power_of_10 (u32 v)
                       (k - Z.of_nat (List.length F)))
                = v * 10 ^ (k - Z.of_nat (List.length F))).
  { assert (u32 v = v) as -> by (unfold u32, wrap_u; apply Z.mod_small; lia).
    rewrite multiply_power_of_10_up by lia.
    rewrite Z.mod_small by lia.
    apply s32_small. unfold INT32_MIN, INT32_MAX. lia. }
  destruct (scan_unit unit k v n Hunit) as [Su Sk].
  rewrite Su. cbv beta iota zeta. rewrite Sk, Hn. f_equal. exact Val.
Qed.

(** *** What [to_frequency] writes *)

Lemma low3_mod (hz : Z) : low3 hz = low3 (hz mod 1000).
Proof.
  unfold low3, digit_char.
  assert (E0 : hz mod 1000 mod 10 = hz mod 10)
    by (Z.div_mod_to_equations; lia).
  assert (E1 : (hz mod 1000 / 10) mod 10 = (hz / 10) mod 10)
    by (Z.div_mod_to_equations; lia).
  assert (E2 : (hz mod 1000 / 100) mod 10 = (hz / 100) mod 10)
    by (Z.div_mod_to_equations; lia).
  now rewrite E0, E1, E2.
Qed.

Lemma group_mod (hz : Z) : group hz = group (hz mod 1000).
Proof. unfold group. now rewrite low3_mod. Qed.

Lemma firstn_length_all (A : Type) (l : list A) :
  firstn (List.length l) l = l.
Proof. apply firstn_all. Qed.

Lemma to_frequency_rendering (hz : Z) :
  0 <= hz < 1000000000 ->
  to_frequency hz sizeof_buf
  = let '(ip, fp, unit, _) := rendering hz in formatted ip fp unit.
Proof.
  intros Hhz. unfold to_frequency, rendering, sizeof_buf, reverse.
  assert (u32 hz = hz) as ->
      by (unfold u32, wrap_u; apply Z.mod_small; lia).
  change (20 - 4) with 16.
  destruct (Z.ltb_spec hz 1000) as [H1 | H1];
    [|destruct (Z.ltb_spec hz 1000000) as [H2 | H2]].
  - destruct (group_facts hz ltac:(lia)) as (_ & _ & _ & _ & Hl & _).
    change 10%nat with (S (S 8)).
    rewrite emit_last by (first [reflexivity | rewrite ?length_app; simpl; lia]).
    cbv beta iota zeta. change (0 =? 0) with true. cbv iota.
    cbn [app]. rewrite Z.add_0_l.
    fold (leading hz).
    replace (3 <? Z.of_nat (List.length (low_digits hz))) with false
      by (symmetry; apply Z.ltb_ge; unfold leading in Hl;
          rewrite length_rev in Hl; lia).
    replace (6 <? Z.of_nat (List.length (low_digits hz))) with false
      by (symmetry; apply Z.ltb_ge; unfold leading in Hl;
          rewrite length_rev in Hl; lia).
    rewrite firstn_all. unfold formatted. now rewrite app_nil_r.
  - assert (Ha : 0 <= hz / 1000 < 1000)
      by (split; [apply Z.div_pos; lia | apply Z.div_lt_upper_bound; lia]).
    destruct (group_facts (hz / 1000) Ha) as (_ & _ & _ & _ & Hl & _).
    unfold leading in Hl. rewrite length_rev in Hl.
    change 10%nat with (S (S (S (S (S 5))))).
    rewrite emit3 by (first [reflexivity | rewrite ?length_app; simpl; lia]).
    rewrite emit_last by (first [reflexivity | rewrite ?length_app; simpl; lia]).
    cbv beta iota zeta. change (0 + 3 =? 0) with false. cbv iota.
    cbn [app].
    replace (3 <? 0 + 3 + Z.of_nat (List.length (low_digits (hz / 1000))))
      with true by (symmetry; apply Z.ltb_lt; lia).
    replace (6 <? 0 + 3 + Z.of_nat (List.length (low_digits (hz / 1000))))
      with false by (symmetry; apply Z.ltb_ge; lia).
    rewrite !rev_app_distr. cbn [rev app].
    fold (group hz). fold (leading (hz / 1000)).
    rewrite group_mod.
    pose proof (strip_one_group (leading (hz / 1000)) (hz mod 1000)
                  ltac:(apply Z.mod_pos_bound; lia)) as S.
    cbv zeta in S. rewrite S. unfold formatted.
    match goal with
    | |- context [match ?F with [] => _ | _ => _ end] => now destruct F
    end.
  - assert (Ha : 0 <= hz / 1000000 < 1000)
      by (split; [apply Z.div_pos; lia | apply Z.div_lt_upper_bound; lia]).
    assert (Hk : 1000 <= hz / 1000)
      by (apply Z.div_le_lower_bound; lia).
    destruct (group_facts (hz / 1000000) Ha) as (_ & _ & _ & _ & Hl & _).
    unfold leading in Hl. rewrite length_rev in Hl.
    change 10%nat with (S (S (S (S (S (S (S (S 2)))))))).
    rewrite emit3 by (first [reflexivity | rewrite ?length_app; simpl; lia]).
    rewrite emit3 by (first [reflexivity | rewrite ?length_app; simpl; lia]).
    rewrite Z.div_div by lia. change (1000 * 1000) with 1000000.
    rewrite emit_last by (first [reflexivity | rewrite ?length_app; simpl; lia]).
    cbv beta iota zeta. change (0 + 3 + 3 =? 0) with false. cbv iota.
    cbn [app].
    replace (3 <? 0 + 3 + 3
                  + Z.of_nat (List.length (low_digits (hz / 1000000))))
      with true by (symmetry; apply Z.ltb_lt; lia).
    replace (6 <? 0 + 3 + 3
                  + Z.of_nat (List.length (low_digits (hz / 1000000))))
      with true by (symmetry; apply Z.ltb_lt; lia).
    rewrite !rev_app_distr. cbn [rev app].
    fold (group hz). fold (group (hz / 1000)). fold (leading (hz / 1000000)).
    rewrite (group_mod hz), (group_mod (hz / 1000)).
    rewrite (app_assoc (leading (hz / 1000000) ++ [chr 46])).
    pose proof (strip_two_groups (leading (hz / 1000000))
                  (hz / 1000 mod 1000) (hz mod 1000)
                  ltac:(apply Z.mod_pos_bound; lia)
                  ltac:(apply Z.mod_pos_bound; lia)) as S.
    cbv zeta in S. rewrite S. unfold formatted.
    match goal with
    | |- context [match ?F with [] => _ | _ => _ end] => now destruct F
    end.
Qed.

Lemma fraction_value (ip fp : list ascii) (k x : Z) :
  Z.of_nat (List.length fp) <= k ->
  decimal 0 fp * 10 ^ (k - Z.of_nat (List.length fp)) = x ->
  decimal 0 (ip ++ fp) * 10 ^ (k - Z.of_nat (List.length fp))
  = decimal 0 ip * 10 ^ k + x.
Proof.
  intros Hk Hx. rewrite decimal_app, decimal_shift.
  rewrite Z.mul_add_distr_r, Hx, <- Z.mul_assoc, <- Z.pow_add_r by lia.
  replace (Z.of_nat (List.length fp) + (k - Z.of_nat (List.length fp)))
    with k by lia.
  reflexivity.
Qed.

Lemma fraction2_facts (b c : Z) :
  0 <= b < 1000 -> 0 <= c < 1000 ->
  forallb isdigit (fraction2 b c) = true /\
  Z.of_nat (List.length (fraction2 b c)) <= 6 /\
  decimal 0 (fraction2 b c) * 10 ^ (6 - Z.of_nat (List.length (fraction2 b c)))
  = b * 1000 + c.
Proof.
  intros Hb Hc. unfold fraction2.
  destruct (group_facts b Hb) as (Gd & Gv & _ & _ & _ & Sd & Sl & Sv).
  destruct (group_facts c Hc) as (_ & _ & _ & _ & _ & Td & Tl & Tv).
  destruct (Z.eqb_spec c 0) as [-> | Hne].
  - repeat split; [exact Sd | lia |].
    replace (6 - Z.of_nat (List.length (stripped b)))
      with (3 - Z.of_nat (List.length (stripped b)) + 3) by lia.
    rewrite Z.pow_add_r, Z.mul_assoc, Sv by lia. lia.
  - repeat split.
    + now rewrite forallb_app, Gd, Td.
    + rewrite length_app, group_length. lia.
    + rewrite length_app, group_length.
      replace (6 - Z.of_nat (3 + List.length (stripped c)))
        with (3 - Z.of_nat (List.length (stripped c))) by lia.
      rewrite fraction_value with (k := 3) (x := c) by (try lia; exact Tv).
      rewrite Gv. lia.
Qed.

(** The text [to_frequency] writes denotes the value it was given. *)
Lemma rendering_facts (hz : Z) :
  0 <= hz < 1000000000 ->
  let '(ip, fp, unit, k) := rendering hz in
  forallb isdigit ip = true /\ forallb isdigit fp = true /\
  ((unit = "Hz"%string /\ k = 0) \/ (unit = "kHz"%string /\ k = 3)
   \/ (unit = "MHz"%string /\ k = 6)) /\
  Z.of_nat (List.length fp) <= k /\
  decimal 0 (ip ++ fp) * 10 ^ (k - Z.of_nat (List.length fp)) = hz.
Proof.
  intros Hhz. unfold rendering.
  destruct (Z.ltb_spec hz 1000) as [H1 | H1];
    [|destruct (Z.ltb_spec hz 1000000) as [H2 | H2]].
  - destruct (group_facts hz ltac:(lia)) as (_ & _ & Ld & Lv & _).
    repeat split; try assumption; try reflexivity; [tauto|].
    rewrite app_nil_r, Lv. simpl. lia.
  - assert (Ha : 0 <= hz / 1000 < 1000)
      by (split; [apply Z.div_pos; lia | apply Z.div_lt_upper_bound; lia]).
    assert (Hc : 0 <= hz mod 1000 < 1000) by (apply Z.mod_pos_bound; lia).
    destruct (group_facts _ Ha) as (_ & _ & Ld & Lv & _).
    destruct (group_facts _ Hc) as (_ & _ & _ & _ & _ & Sd & Sl & Sv).
    repeat split; try assumption; [tauto|].
    rewrite fraction_value with (x := hz mod 1000) by assumption.
    rewrite Lv. change (10 ^ 3) with 1000.
    rewrite (Z.div_mod hz 1000) at 3 by lia. lia.
  - assert (Ha : 0 <= hz / 1000000 < 1000)
      by (split; [apply Z.div_pos; lia | apply Z.div_lt_upper_bound; lia]).
    assert (Hb : 0 <= hz / 1000 mod 1000 < 1000)
      by (apply Z.mod_pos_bound; lia).
    assert (Hc : 0 <= hz mod 1000 < 1000) by (apply Z.mod_pos_bound; lia).
    destruct (group_facts _ Ha) as (_ & _ & Ld & Lv & _).
    destruct (fraction2_facts _ _ Hb Hc) as (Fd & Fl & Fv).
    repeat split; try assumption; [tauto|].
    rewrite fraction_value with (x := hz / 1000 mod 1000 * 1000 + hz mod 1000)
      by assumption.
    rewrite Lv. change (10 ^ 6) with 1000000.
    Z.div_mod_to_equations. lia.
Qed.

Lemma digit_is_plain (c : ascii) :
  isdigit c || is_char 46 c = true -> plain_char c = true.
Proof.
  unfold isdigit, is_char, plain_char, isspace, is_quote. cbv zeta.
  intros H. apply orb_prop in H.
  assert (R : 48 <= code c <= 57 \/ code c = 46).
  { destruct H as [H | H].
    - apply andb_prop in H. destruct H as [A B].
      apply Z.leb_le in A. apply Z.leb_le in B. lia.
    - apply Z.eqb_eq in H. lia. }
  replace (code c =? 32) with false by (symmetry; apply Z.eqb_neq; lia).
  replace (code c =? 34) with false by (symmetry; apply Z.eqb_neq; lia).
  replace (code c =? 0) with false by (symmetry; apply Z.eqb_neq; lia).
  replace ((9 <=? code c) && (code c <=? 13)) with false; [reflexivity|].
  symmetry. apply andb_false_iff. right. apply Z.leb_gt. lia.
Qed.

Lemma plain_append (s t : string) :
  plain (s ++ t) = plain s && plain t.
Proof.
  induction s as [|c r IH]; simpl; [reflexivity|].
  now rewrite IH, andb_assoc.
Qed.

Lemma plain_digits (l : list ascii) :
  forallb (fun c => isdigit c || is_char 46 c) l = true ->
  plain (string_of_list_ascii l) = true.
Proof.
  induction l as [|c r IH]; simpl; [reflexivity|].
  intros H. apply andb_prop in H. destruct H as [Hc Hr].
  rewrite (digit_is_plain c Hc), (IH Hr). reflexivity.
Qed.

Lemma formatted_plain (ip fp : list ascii) (unit : string) :
  forallb isdigit ip = true -> forallb isdigit fp = true ->
  unit = "Hz"%string \/ unit = "kHz"%string \/ unit = "MHz"%string ->
  plain (formatted ip fp unit) = true /\ formatted ip fp unit <> EmptyString.
Proof.
  intros Hi Hf Hu. unfold formatted. split.
  - rewrite plain_append. apply andb_true_intro. split.
    + apply plain_digits. rewrite forallb_app. apply andb_true_intro.
      assert (W : forall l, forallb isdigit l = true ->
                  forallb (fun c => isdigit c || is_char 46 c) l = true).
      { intros l Hl. rewrite forallb_forall in *. intros x Hx.
        now rewrite (Hl x Hx). }
      split; [now apply W|].
      destruct fp as [|c fp]; [reflexivity|].
      change (forallb (fun c => isdigit c || is_char 46 c) (c :: fp) = true).
      now apply W.
    + destruct Hu as [-> | [-> | ->]]; reflexivity.
  - destruct (string_of_list_ascii _); destruct Hu as [-> | [-> | ->]];
      discriminate.
Qed.

(** X26: [config_frequency] reads back what [to_frequency] writes.  For
    every frequency below 10^9 Hz, the text [to_frequency] renders into
    the 20-byte buffer of [clock_info], given as the argument of a
    configuration (after any white space, and followed by the end of the
    text or by white space), is accepted with status 0 and without a
    message, and stores exactly that frequency in the chosen member
    before the derived clocks are recomputed. *)
Theorem frequency_text_round_trip (L : libc) (clk : clock) (m : hz_member)
  (hz : Z) (ws tail : string) :
  0 <= hz < 1000000000 -> blank ws = true -> at_break tail = true ->
  config_frequency L clk m (ws ++ to_frequency hz sizeof_buf ++ tail)
  = (0, update_clock_frequencies L (set_hz m hz clk), [],
     skip_space (c_str tail)).
Proof.
  intros Hhz Hws Htail.
  rewrite config_frequency_value, to_frequency_rendering by assumption.
  pose proof (rendering_facts hz Hhz) as R.
  destruct (rendering hz) as [[[ip fp] unit] k].
  destruct R as (Di & Df & Hu & Hl & Hv).
  destruct (formatted_plain ip fp unit Di Df) as [Hp Hne]; [tauto|].
  rewrite get_arg_of_plain by assumption.
  rewrite frequency_value_formatted with (k := k)
    by (try assumption; lia).
  now rewrite Hv.
Qed.


Lemma frequency_text_round_trip_witness :
  exists clk,
    Scenarios.basic_reset = Some clk /\
    config_frequency RefLibc.ref clk M_lfxt1
      (" " ++ to_frequency 32768 sizeof_buf ++ " rest")
    = (0, update_clock_frequencies RefLibc.ref (set_hz M_lfxt1 32768 clk), [],
       skip_space (c_str " rest")).
Proof.
  eexists. split; [vm_compute; reflexivity|].
  apply frequency_text_round_trip; [lia | reflexivity | reflexivity].
Defined.

(** The bound is needed: a value of ten digits is rendered with the unit
    of seven to nine digits, and reads back a thousand times smaller. *)
Example ten_digits_do_not_round_trip :
  to_frequency 1234567890 sizeof_buf = "1.23456789MHz"%string /\
  frequency_value (to_frequency 1234567890 sizeof_buf) = Some 1234567.
Proof. split; vm_compute; reflexivity. Qed.
